(** * Dockling-WINGUI: the conversion job, its progress tracker and its worker

    A shallow embedding of

    - [src/progress_tracker.py]  ([ConversionStats], [ProgressTracker]),
    - [src/convert_to_markdown.py]  ([DocumentConversionStats],
      [generate_unique_output_name], [convert_documents]),
    - [src/gui_controller.py]  ([ConversionController._conversion_worker],
      [_progress_callback], the log relay of [src/logger_adapter.py]),

    followed by the properties of the specification that concern them.

    Python values are modelled as follows.  [int] is [Z].  [float] is the
    kernel's binary64 [PrimFloat.float], with the same round-to-nearest-even
    arithmetic as CPython's.  [str] is [string] (the UTF-8 bytes of the
    text).  A [dict] with integer or string keys is a [gmap], a [set] of
    strings a [gset string], a [list] a [list].  An exception is the text
    [str(e)] of an instance of [Exception]; [BaseException]s that are not
    [Exception]s (interpreter exit, keyboard interrupt) are outside the
    model. *)

From Stdlib Require Import ZArith Ascii String PrimFloat FloatOps SpecFloat.
From stdpp Require Import gmap strings list pretty.

Open Scope Z_scope.

(* ===================================================================== *)
(** * Python primitives used by the sources *)
(* ===================================================================== *)

Module Py.

(** [str(n)] and the [{n}] of an f-string, for an [int]. *)
Definition str_of_int (n : Z) : string := pretty n.

(** [c.lower()] on one byte: the ASCII capitals are folded, every other
    byte is kept.  (CPython also folds capitals outside ASCII; their UTF-8
    bytes are all above 127, and the only one that folds onto an ASCII
    letter is U+212A.) *)
Definition lower_ascii (c : ascii) : ascii :=
  let n := nat_of_ascii c in
  if ((65 <=? n) && (n <=? 90))%nat then ascii_of_nat (n + 32) else c.

(** [s.lower()] *)
Fixpoint lower (s : string) : string :=
  match s with
  | EmptyString => EmptyString
  | String c s' => String (lower_ascii c) (lower s')
  end.

(** [float(n)] for an [int]: the nearest binary64, ties to even. *)
Definition float_of_int (n : Z) : float :=
  SF2Prim (binary_normalize prec emax n 0 false).

(** [a / b] on two [int]s (true division), [b] not zero.  CPython rounds
    the exact quotient once; this is [float(a) / float(b)] whenever both
    operands are exactly representable, that is up to 2^53 in size. *)
Definition int_truediv (a b : Z) : float :=
  (float_of_int a / float_of_int b)%float.

(** The integer [m * 2^e] rounded towards minus infinity. *)
Definition scale_floor (m e : Z) : Z :=
  if 0 <=? e then Z.shiftl m e else Z.shiftr m (- e).

(** [int(x)] on a [float]: truncation towards zero.  (CPython raises on a
    NaN and on the infinities; no clock reading is one of them, and the
    model answers 0 there.) *)
Definition int_of_float (x : float) : Z :=
  match Prim2SF x with
  | S754_finite s m e =>
      let a := scale_floor (Zpos m) e in if s then - a else a
  | _ => 0
  end.

(** C's [floor] on a double. *)
Definition floor (x : float) : float :=
  match Prim2SF x with
  | S754_finite s m e =>
      if 0 <=? e then x
      else float_of_int (scale_floor (if s then Zneg m else Zpos m) e)
  | _ => x
  end.

(** C's [fmod]: the exact remainder of [x / y], with the sign of [x]. *)
Definition fmod (x y : float) : float :=
  match Prim2SF x, Prim2SF y with
  | S754_nan, _ | _, S754_nan => nan
  | S754_infinity _, _ | _, S754_zero _ => nan
  | S754_zero _, _ => x
  | S754_finite _ _ _, S754_infinity _ => x
  | S754_finite sx mx ex, S754_finite _ my ey =>
      let e := Z.min ex ey in
      let r := Z.shiftl (Zpos mx) (ex - e) mod Z.shiftl (Zpos my) (ey - e) in
      SF2Prim (binary_normalize prec emax (if sx then - r else r) e sx)
  end.

(** [copysign(0.0, y)] *)
Definition zero_with_sign_of (y : float) : float :=
  if get_sign y then neg_zero else zero.

(** [x % y] on floats, [y] not zero (CPython's [float_rem]). *)
Definition float_mod (vx wx : float) : float :=
  let m := fmod vx wx in
  if (m =? zero)%float then zero_with_sign_of wx
  else if xorb (wx <? zero)%float (m <? zero)%float then (m + wx)%float
  else m.

(** [x // y] on floats, [y] not zero (CPython's [float_floor_div]). *)
Definition float_floordiv (vx wx : float) : float :=
  let m := fmod vx wx in
  let d := ((vx - m) / wx)%float in
  let d :=
    if negb (m =? zero)%float && xorb (wx <? zero)%float (m <? zero)%float
    then (d - one)%float else d in
  if (d =? zero)%float then zero_with_sign_of (vx / wx)%float
  else
    let fl := floor d in
    if (0.5 <? d - fl)%float then (fl + one)%float
    else fl.

(** [f"{n:02d}"] *)
Definition format_02d (n : Z) : string :=
  let s := str_of_int n in
  if (String.length s <? 2)%nat then "0" +:+ s else s.

End Py.

(** ** The wall clock

    [time.time()] is an input of the program.  A clock is the sequence of
    its readings; a computation that reads it is given the number of
    readings taken so far and returns the number taken after it. *)

Definition Clock : Type := nat → float.

Definition time_time (clk : Clock) (n : nat) : float * nat := (clk n, S n).

(* ===================================================================== *)
(** * src/progress_tracker.py *)
(* ===================================================================== *)

(** ** [ConversionStats] *)

Record ConversionStats : Type := mkConversionStats {
  success : Z;
  partial : Z;
  failed : Z;
  skipped : Z
}.

(** [ConversionStats()] *)
Definition ConversionStats_new : ConversionStats := mkConversionStats 0 0 0 0.

Definition total_processed (s : ConversionStats) : Z :=
  success s + partial s + failed s + skipped s.

Definition success_rate (s : ConversionStats) : float :=
  let total := total_processed s in
  if total =? 0 then zero
  else (Py.int_truediv (success s + partial s) total * Py.float_of_int 100)%float.

Definition to_dict (s : ConversionStats) : gmap string Z :=
  <["success" := success s]>
    (<["partial" := partial s]>
      (<["failed" := failed s]>
        (<["skipped" := skipped s]> ∅))).

(** ** [ProgressTracker] *)

Record ProgressTracker : Type := mkProgressTracker {
  total_files : Z;
  current_file_index : Z;
  current_filename : string;
  start_time : float;
  stats : ConversionStats;
  file_start_times : gmap Z float;
  file_end_times : gmap Z float
}.

(** [ProgressTracker(total_files)] *)
Definition ProgressTracker_init (total : Z) (clk : Clock) (n : nat)
  : ProgressTracker * nat :=
  let '(now, n) := time_time clk n in
  (mkProgressTracker total 0 "" now ConversionStats_new ∅ ∅, n).

Definition start_file (filename : string) (index : Z) (t : ProgressTracker)
    (clk : Clock) (n : nat) : ProgressTracker * nat :=
  let '(now, n) := time_time clk n in
  (mkProgressTracker (total_files t) index filename (start_time t) (stats t)
     (<[index := now]> (file_start_times t)) (file_end_times t), n).

Definition end_file (index : Z) (t : ProgressTracker)
    (clk : Clock) (n : nat) : ProgressTracker * nat :=
  let '(now, n) := time_time clk n in
  (mkProgressTracker (total_files t) (current_file_index t)
     (current_filename t) (start_time t) (stats t)
     (file_start_times t) (<[index := now]> (file_end_times t)), n).

Definition set_stats (t : ProgressTracker) (s : ConversionStats)
  : ProgressTracker :=
  mkProgressTracker (total_files t) (current_file_index t)
    (current_filename t) (start_time t) s
    (file_start_times t) (file_end_times t).

Definition update_stats (status : string) (t : ProgressTracker)
  : ProgressTracker :=
  let status_lower := Py.lower status in
  let s := stats t in
  if String.eqb status_lower "success" then
    set_stats t (mkConversionStats (success s + 1) (partial s) (failed s) (skipped s))
  else if String.eqb status_lower "partial"
          || String.eqb status_lower "partial_success" then
    set_stats t (mkConversionStats (success s) (partial s + 1) (failed s) (skipped s))
  else if String.eqb status_lower "failed"
          || String.eqb status_lower "failure"
          || String.eqb status_lower "error" then
    set_stats t (mkConversionStats (success s) (partial s) (failed s + 1) (skipped s))
  else if String.eqb status_lower "skipped" then
    set_stats t (mkConversionStats (success s) (partial s) (failed s) (skipped s + 1))
  else t.

Definition get_progress_percentage (t : ProgressTracker) : Z :=
  if total_files t =? 0 then 0
  else Py.int_of_float
         (Py.int_truediv (total_processed (stats t)) (total_files t)
          * Py.float_of_int 100)%float.

(** The annotation says [int], the body returns [None]. *)
Definition get_current_file_percentage (t : ProgressTracker) : option Z :=
  None.

Definition get_elapsed_time (t : ProgressTracker) (clk : Clock) (n : nat)
  : float * nat :=
  let '(now, n) := time_time clk n in ((now - start_time t)%float, n).

Definition get_average_time_per_file (t : ProgressTracker)
    (clk : Clock) (n : nat) : float * nat :=
  let completed := total_processed (stats t) in
  if completed =? 0 then (zero, n)
  else
    let '(elapsed, n) := get_elapsed_time t clk n in
    ((elapsed / Py.float_of_int completed)%float, n).

Definition _format_time (seconds : float) : string :=
  let hours := Py.int_of_float (Py.float_floordiv seconds (Py.float_of_int 3600)) in
  let minutes :=
    Py.int_of_float
      (Py.float_floordiv (Py.float_mod seconds (Py.float_of_int 3600))
                         (Py.float_of_int 60)) in
  let secs := Py.int_of_float (Py.float_mod seconds (Py.float_of_int 60)) in
  Py.format_02d hours +:+ ":" +:+ Py.format_02d minutes +:+ ":"
    +:+ Py.format_02d secs.

(** The text shown while no file has been processed. *)
Definition eta_calculating : string := "Расчет...".

Definition get_eta (t : ProgressTracker) (clk : Clock) (n : nat)
  : (float * string) * nat :=
  let processed := total_processed (stats t) in
  if processed =? 0 then ((zero, eta_calculating), n)
  else
    let remaining_files := total_files t - processed in
    if remaining_files <=? 0 then ((zero, "00:00:00"%string), n)
    else
      let '(avg_time, n) := get_average_time_per_file t clk n in
      let eta_seconds := (Py.float_of_int remaining_files * avg_time)%float in
      ((eta_seconds, _format_time eta_seconds), n).

Definition get_elapsed_formatted (t : ProgressTracker) (clk : Clock) (n : nat)
  : string * nat :=
  let '(elapsed, n) := get_elapsed_time t clk n in (_format_time elapsed, n).

(** ** The messages put on the queue

    Every message is a [dict] whose ['type'] entry is one of five strings;
    the constructor is that entry, its arguments are the other entries. *)

Record ProgressMessage : Type := mkProgressMessage {
  current : Z;
  total : Z;
  filename : string;
  percentage : Z;
  current_file_percentage : option Z;
  elapsed : string;
  eta : string;
  eta_seconds : float
}.

Record StatsMessage : Type := mkStatsMessage {
  stats_entry : gmap string Z;
  total_processed_entry : Z;
  success_rate_entry : float
}.

Inductive Message : Type :=
  | MsgLog (emoji message level : string)
  | MsgProgress (m : ProgressMessage)
  | MsgStats (m : StatsMessage)
  | MsgComplete (stats_entry : gmap string Z)
  | MsgError (message : string).


Definition to_progress_message (t : ProgressTracker) (clk : Clock) (n : nat)
  : Message * nat :=
  let '((eta_seconds, eta_formatted), n) := get_eta t clk n in
  let pct := get_progress_percentage t in
  let cur := get_current_file_percentage t in
  let '(elapsed_formatted, n) := get_elapsed_formatted t clk n in
  (MsgProgress
     (mkProgressMessage (current_file_index t) (total_files t)
        (current_filename t) pct cur elapsed_formatted
        eta_formatted eta_seconds), n).

Definition to_stats_message (t : ProgressTracker) : Message :=
  MsgStats
    (mkStatsMessage (to_dict (stats t)) (total_processed (stats t))
       (success_rate (stats t))).

(* ===================================================================== *)
(** * src/convert_to_markdown.py *)
(* ===================================================================== *)

(** ** [DocumentConversionStats] *)

(** The items of its [errors] list: dicts told apart by ['status']. *)
Inductive ErrorEntry : Type :=
  | PartialEntry (file : string) (errors : list string)
  | FailedEntry (file : string) (error : string)
  | SkippedEntry (file : string) (reason : string).

Module DCS.

(** [start_time] is read by [print_summary] only and is left out. *)
Record t : Type := mk {
  total_files : Z;
  successful : Z;
  partial_success : Z;
  failed : Z;
  skipped : Z;
  errors : list ErrorEntry
}.

(** [DocumentConversionStats()] *)
Definition new : t := mk 0 0 0 0 0 [].

Definition set_total_files (n : Z) (s : t) : t :=
  mk n (successful s) (partial_success s) (failed s) (skipped s) (errors s).

Definition add_success (s : t) : t :=
  mk (total_files s) (successful s + 1) (partial_success s) (failed s)
     (skipped s) (errors s).

Definition add_partial_success (filename : string) (errs : list string)
    (s : t) : t :=
  mk (total_files s) (successful s) (partial_success s + 1) (failed s)
     (skipped s) (errors s ++ [PartialEntry filename errs]).

Definition add_failure (filename error : string) (s : t) : t :=
  mk (total_files s) (successful s) (partial_success s) (failed s + 1)
     (skipped s) (errors s ++ [FailedEntry filename error]).

Definition add_skipped (filename reason : string) (s : t) : t :=
  mk (total_files s) (successful s) (partial_success s) (failed s)
     (skipped s + 1) (errors s ++ [SkippedEntry filename reason]).

End DCS.

(** ** What the job is given from outside *)

Inductive Result (A : Type) : Type :=
  | Ok (a : A)
  | Raise (e : string).
Arguments Ok {A} a.
Arguments Raise {A} e.

(** A [pathlib.Path] of the input list: its [name], its [stem], and what
    [stat().st_size] answers for it ([Raise] when the file cannot be
    stat'ed, for instance a dangling link). *)
Record Path : Type := mkPath {
  name : string;
  stem : string;
  st_size : Result Z
}.

(** The attributes of [Config] that the job reads. *)
Record Config : Type := mkConfig {
  MAX_FILE_SIZE : Z;
  MAX_NUM_PAGES : Z;
  CONTINUE_ON_ERROR : bool
}.

Inductive ConversionStatus : Type := SUCCESS | PARTIAL_SUCCESS | FAILURE.

(** One result of the engine: its status, the [error_message] of each of
    its [errors], and what [document.save_as_markdown] does when called
    ([Some e]: it raises an exception whose text is [e]). *)
Record ConversionResult : Type := mkConversionResult {
  status : ConversionStatus;
  errors : list string;
  save_as_markdown : option string
}.

(** What iterating [converter.convert_all(...)] does: it yields [yielded]
    one by one, then stops ([None]) or raises ([Some e]).  The engine is
    opaque: every such behaviour is allowed. *)
Record ResultStream : Type := mkResultStream {
  yielded : list ConversionResult;
  crash : option string
}.

Inductive LogLevel : Type := DEBUG | INFO | WARNING | ERROR.

Definition levelname (l : LogLevel) : string :=
  match l with
  | DEBUG => "DEBUG" | INFO => "INFO" | WARNING => "WARNING" | ERROR => "ERROR"
  end.

(** The surroundings of a run.

    - [clock]: the readings of [time.time()] taken by the tracker.
    - [format_1f]: the [.1f] presentation of a float in an f-string.
    - [isEnabledFor]: whether the root logger hands a record of that level
      to its handlers (its level is set outside the sources at hand).
    - [gui_format]: what [GuiLogHandler.emit] makes of a record, the emoji
      and the text with its time stamp; the first argument is the number of
      messages already on the queue, which stands for the moment of the
      call. *)
Record Env : Type := mkEnv {
  clock : Clock;
  format_1f : float → string;
  isEnabledFor : LogLevel → bool;
  gui_format : nat → LogLevel → string → string * string
}.

(** ** State and control

    Everything the job mutates: the queue of the controller (oldest message
    first), the number of clock readings taken, the
    [DocumentConversionStats] object shared by the worker and
    [convert_documents], the two locals [tracker] and [used_names] of
    [convert_documents], and the file names handed to [save_as_markdown] so
    far, in call order. *)
Record State : Type := mkState {
  message_queue : list Message;
  ticks : nat;
  doc_stats : DCS.t;
  tracker : option ProgressTracker;
  used_names : gset string;
  saved : list string
}.

(** A statement sequence: it ends normally with a value or raises, and in
    both cases leaves a state behind. *)
Definition M (A : Type) : Type := State → Result A * State.

Definition ret {A} (a : A) : M A := λ s, (Ok a, s).

Definition raise {A} (e : string) : M A := λ s, (Raise e, s).

Definition bind {A B} (m : M A) (k : A → M B) : M B :=
  λ s, match m s with
       | (Ok a, s') => k a s'
       | (Raise e, s') => (Raise e, s')
       end.

(** [try: m  except Exception as e: h e] *)
Definition try_except {A} (m : M A) (h : string → M A) : M A :=
  λ s, match m s with
       | (Ok a, s') => (Ok a, s')
       | (Raise e, s') => h e s'
       end.

Declare Scope M_scope.
Delimit Scope M_scope with M.
Notation "x <- m ;; k" := (bind m (λ x, k))
  (at level 100, m at next level, right associativity) : M_scope.
Notation "m ;; k" := (bind m (λ _, k))
  (at level 100, right associativity) : M_scope.
Open Scope M_scope.

Definition get_state : M State := λ s, (Ok s, s).

Definition modify (f : State → State) : M unit := λ s, (Ok tt, f s).

Definition with_queue (f : list Message → list Message) (s : State) : State :=
  mkState (f (message_queue s)) (ticks s) (doc_stats s) (tracker s)
    (used_names s) (saved s).

Definition with_ticks (n : nat) (s : State) : State :=
  mkState (message_queue s) n (doc_stats s) (tracker s) (used_names s) (saved s).

Definition with_doc_stats (f : DCS.t → DCS.t) (s : State) : State :=
  mkState (message_queue s) (ticks s) (f (doc_stats s)) (tracker s)
    (used_names s) (saved s).

Definition with_tracker (t : option ProgressTracker) (s : State) : State :=
  mkState (message_queue s) (ticks s) (doc_stats s) t (used_names s) (saved s).

Definition with_used_names (u : gset string) (s : State) : State :=
  mkState (message_queue s) (ticks s) (doc_stats s) (tracker s) u (saved s).

Definition with_saved (f : list string → list string) (s : State) : State :=
  mkState (message_queue s) (ticks s) (doc_stats s) (tracker s)
    (used_names s) (f (saved s)).

(** [self.message_queue.put(message)]: the queue is unbounded, [put]
    neither blocks nor raises. *)
Definition put (m : Message) : M unit := modify (with_queue (λ q, q ++ [m])).

(** A tracker method that reads the clock, run on the [tracker] local. *)
Definition on_tracker (env : Env)
    (f : ProgressTracker → Clock → nat → ProgressTracker * nat)
    (t : ProgressTracker) : M ProgressTracker :=
  λ s, let r := f t (clock env) (ticks s) in
       (Ok (fst r), with_tracker (Some (fst r)) (with_ticks (snd r) s)).

Definition tracker_message (env : Env) (t : ProgressTracker) : M Message :=
  λ s, let r := to_progress_message t (clock env) (ticks s) in
       (Ok (fst r), with_ticks (snd r) s).

(** What a logging call adds to a queue that holds [n] messages: the
    record goes to the handlers of the root logger, if that logger is
    enabled for its level; the handler that matters here is the
    [GuiLogHandler] installed by the controller, whose callback
    [_on_log_message] puts one ['log'] message.  ([emit] catches whatever
    its formatting raises.) *)
Definition relayed (env : Env) (n : nat) (l : LogLevel) (text : string)
  : list Message :=
  if isEnabledFor env l then
    let r := gui_format env n l text in [MsgLog (fst r) (snd r) (levelname l)]
  else [].

(** [logger.<level>(text)] and [logging.<level>(text)] *)
Definition logger (env : Env) (l : LogLevel) (text : string) : M unit :=
  modify (with_queue (λ q, q ++ relayed env (length q) l text)).

(** [for x in l: body x] *)
Fixpoint for_each {A} (l : list A) (body : A → M unit) : M unit :=
  match l with
  | [] => ret tt
  | x :: l' => body x ;; for_each l' body
  end.

(** [l[i]] on a list *)
Definition getitem {A} (l : list A) (i : Z) : M A :=
  let j := if i <? 0 then i + Z.of_nat (length l) else i in
  match (if 0 <=? j then l !! Z.to_nat j else None) with
  | Some x => ret x
  | None => raise "list index out of range"
  end.

(** [sep.join(l)] *)
Fixpoint join (sep : string) (l : list string) : string :=
  match l with
  | [] => ""
  | [x] => x
  | x :: l' => x +:+ sep +:+ join sep l'
  end.

(** [progress_callback(m)]; the parameter defaults to [None]. *)
Definition call (progress_callback : option (Message → M unit)) (m : Message)
  : M unit :=
  match progress_callback with
  | Some f => f m
  | None => raise "'NoneType' object is not callable"
  end.

(** [if progress_callback: progress_callback(m)] *)
Definition if_callback (progress_callback : option (Message → M unit))
    (m : Message) : M unit :=
  match progress_callback with
  | Some f => f m
  | None => ret tt
  end.

(** ** [generate_unique_output_name] *)

(** The [while] loop, entered with the name under test and the counter.
    [fuel] bounds the number of further iterations; [None] stands for a
    loop that has not ended within them. *)
Fixpoint unique_name_loop (fuel : nat) (base_name : string)
    (used_names : gset string) (output_name : string) (counter : Z)
  : option string :=
  if decide (output_name ∈ used_names) then
    match fuel with
    | O => None
    | S fuel' =>
        unique_name_loop fuel' base_name used_names
          (base_name +:+ "_" +:+ Py.str_of_int counter +:+ ".md") (counter + 1)
    end
  else Some output_name.

(** The function returns the name and leaves it in the set, which it
    mutates; here the new set is returned with the name.  [output_dir] is a
    parameter that the body does not use. *)
Definition generate_unique_output_name {Dir : Type} (output_dir : Dir)
    (original_path : Path) (used_names : gset string)
  : option (string * gset string) :=
  let base_name := stem original_path in
  match unique_name_loop (size used_names) base_name used_names
          (base_name +:+ ".md") 1 with
  | Some output_name => Some (output_name, {[output_name]} ∪ used_names)
  | None => None
  end.

(** ** [convert_documents] *)

(** The output directory: what its [mkdir(parents=True, exist_ok=True)]
    does when called ([Some e]: it raises). *)
Record OutputDir : Type := mkOutputDir {
  mkdir : option string
}.

Definition do_mkdir (d : OutputDir) : M unit :=
  match mkdir d with
  | None => ret tt
  | Some e => raise e
  end.

(** [file_path.stat().st_size] *)
Definition stat_size (p : Path) : M Z :=
  match st_size p with
  | Ok n => ret n
  | Raise e => raise e
  end.

(** [x / 1024 / 1024] on an [int] *)
Definition megabytes (x : Z) : float :=
  (Py.int_truediv x 1024 / Py.float_of_int 1024)%float.

(** The size filter: the first [for] loop, with [files_to_convert] built
    up from left to right. *)
Fixpoint size_filter (env : Env) (config : Config) (files : list Path)
    (files_to_convert : list Path) : M (list Path) :=
  match files with
  | [] => ret files_to_convert
  | file_path :: files' =>
      file_size <- stat_size file_path ;;
      if (0 <? MAX_FILE_SIZE config) && (MAX_FILE_SIZE config <? file_size)
      then
        logger env WARNING
          ("Пропуск файла (слишком большой: "
           +:+ format_1f env (megabytes file_size) +:+ " MB): "
           +:+ name file_path) ;;
        modify (with_doc_stats
          (DCS.add_skipped (name file_path)
             ("Размер файла (" +:+ format_1f env (megabytes file_size)
              +:+ " MB) превышает лимит ("
              +:+ format_1f env (megabytes (MAX_FILE_SIZE config))
              +:+ " MB)"))) ;;
        size_filter env config files' files_to_convert
      else size_filter env config files' (files_to_convert ++ [file_path])
  end.

(** The block that follows every outcome:
    [if tracker: tracker.update_stats(kind); tracker.end_file(idx);
     progress_callback(tracker.to_stats_message());
     progress_callback(tracker.to_progress_message())] *)
Definition tracker_update (env : Env)
    (progress_callback : option (Message → M unit)) (kind : string) (idx : Z)
  : M unit :=
  s <- get_state ;;
  match tracker s with
  | None => ret tt
  | Some t =>
      let t := update_stats kind t in
      modify (with_tracker (Some t)) ;;
      t <- on_tracker env (end_file idx) t ;;
      call progress_callback (to_stats_message t) ;;
      m <- tracker_message env t ;;
      call progress_callback m
  end.

(** [tracker.start_file(file_name, idx);
     progress_callback(tracker.to_progress_message())] under [if tracker]. *)
Definition tracker_start (env : Env)
    (progress_callback : option (Message → M unit)) (file_name : string)
    (idx : Z) : M unit :=
  s <- get_state ;;
  match tracker s with
  | None => ret tt
  | Some t =>
      t <- on_tracker env (start_file file_name idx) t ;;
      m <- tracker_message env t ;;
      call progress_callback m
  end.

(** [output_name = generate_unique_output_name(...)], with the mutation of
    [used_names]. *)
Definition fresh_output_name {Dir : Type} (output_dir : Dir)
    (original_file : Path) : M string :=
  s <- get_state ;;
  match generate_unique_output_name output_dir original_file (used_names s) with
  | Some (output_name, used') =>
      modify (with_used_names used') ;; ret output_name
  | None => raise "" (* the loop always ends: not reached *)
  end.

(** [conv_result.document.save_as_markdown(str(output_path))] *)
Definition do_save (conv_result : ConversionResult) (output_name : string)
  : M unit :=
  modify (with_saved (λ l, l ++ [output_name])) ;;
  match save_as_markdown conv_result with
  | None => ret tt
  | Some e => raise e
  end.

(** The two [except Exception as e] handlers around the saving. *)
Definition save_failed (env : Env)
    (progress_callback : option (Message → M unit))
    (log_text file_name : string) (idx : Z) (e : string) : M unit :=
  logger env ERROR (log_text +:+ file_name +:+ ": " +:+ e) ;;
  if_callback progress_callback
    (MsgLog "✗" ("Ошибка сохранения: " +:+ file_name +:+ " — " +:+ e) "ERROR") ;;
  modify (with_doc_stats
    (DCS.add_failure file_name ("Ошибка сохранения: " +:+ e))) ;;
  tracker_update env progress_callback "failed" idx.

(** The body of the second [for] loop, after the stop check. *)
Definition handle_result {Dir : Type} (env : Env) (output_dir : Dir)
    (files_to_convert : list Path)
    (progress_callback : option (Message → M unit))
    (idx : Z) (conv_result : ConversionResult) : M unit :=
  original_file <- getitem files_to_convert (idx - 1) ;;
  let file_name := name original_file in
  tracker_start env progress_callback file_name idx ;;
  logger env INFO
    ("[" +:+ Py.str_of_int idx +:+ "/"
     +:+ Py.str_of_int (Z.of_nat (length files_to_convert))
     +:+ "] Обработка: " +:+ file_name) ;;
  match status conv_result with
  | SUCCESS =>
      try_except
        (output_name <- fresh_output_name output_dir original_file ;;
         do_save conv_result output_name ;;
         logger env INFO ("✓ Успешно сохранено: " +:+ output_name) ;;
         if_callback progress_callback
           (MsgLog "✓" ("Успешно сохранено: " +:+ output_name) "INFO") ;;
         modify (with_doc_stats DCS.add_success) ;;
         tracker_update env progress_callback "success" idx)
        (save_failed env progress_callback "✗ Ошибка сохранения "
           file_name idx)
  | PARTIAL_SUCCESS =>
      try_except
        (output_name <- fresh_output_name output_dir original_file ;;
         do_save conv_result output_name ;;
         let error_messages := errors conv_result in
         logger env WARNING ("⚠ Частично успешно: " +:+ output_name) ;;
         if_callback progress_callback
           (MsgLog "⚠" ("Частично успешно: " +:+ output_name) "WARNING") ;;
         for_each error_messages (λ err_msg,
           logger env WARNING ("  - " +:+ err_msg) ;;
           if_callback progress_callback
             (MsgLog "⚠" ("  - " +:+ err_msg) "WARNING")) ;;
         modify (with_doc_stats
           (DCS.add_partial_success file_name error_messages)) ;;
         tracker_update env progress_callback "partial" idx)
        (save_failed env progress_callback
           "✗ Ошибка сохранения частичного результата " file_name idx)
  | FAILURE =>
      let error_msg :=
        match errors conv_result with
        | [] => "Неизвестная ошибка"
        | errs => join "; " errs
        end in
      logger env ERROR
        ("✗ Ошибка конвертации " +:+ file_name +:+ ": " +:+ error_msg) ;;
      if_callback progress_callback
        (MsgLog "✗" ("Ошибка конвертации " +:+ file_name +:+ ": " +:+ error_msg)
           "ERROR") ;;
      modify (with_doc_stats (DCS.add_failure file_name error_msg)) ;;
      tracker_update env progress_callback "failed" idx
  end.

(** [stop_check and stop_check()], at iteration [idx]: the flag is written
    by the owner at any moment, its value when iteration [idx] reads it is
    [f idx]. *)
Definition stop_now (stop_check : option (Z → bool)) (idx : Z) : bool :=
  match stop_check with
  | Some f => f idx
  | None => false
  end.

(** [for idx, conv_result in enumerate(conv_results, 1): ...].  Each
    iteration first draws the next result from the engine, which may raise
    instead of answering once it has yielded all it had. *)
Fixpoint results_loop {Dir : Type} (env : Env) (output_dir : Dir)
    (files_to_convert : list Path)
    (progress_callback : option (Message → M unit))
    (stop_check : option (Z → bool))
    (idx : Z) (results : list ConversionResult) (crash : option string)
  : M unit :=
  match results with
  | [] =>
      match crash with
      | Some e => raise e
      | None => ret tt
      end
  | conv_result :: results' =>
      if stop_now stop_check idx then
        logger env WARNING "⚠ Остановка по запросу пользователя" (* break *)
      else
        handle_result env output_dir files_to_convert progress_callback
          idx conv_result ;;
        results_loop env output_dir files_to_convert progress_callback
          stop_check (idx + 1) results' crash
  end.

Definition convert_documents (env : Env) (files : list Path)
    (converter : ResultStream) (output_dir : OutputDir) (config : Config)
    (progress_callback : option (Message → M unit))
    (stop_check : option (Z → bool)) : M unit :=
  do_mkdir output_dir ;;
  files_to_convert <- size_filter env config files [] ;;
  let n := Z.of_nat (length files_to_convert) in
  modify (with_doc_stats (DCS.set_total_files n)) ;;
  match files_to_convert with
  | [] => logger env WARNING "Нет файлов для конвертации" (* return *)
  | first :: _ =>
      logger env INFO
        ("Начало конвертации " +:+ Py.str_of_int n +:+ " файлов...") ;;
      if_callback progress_callback
        (MsgLog "ℹ" ("Начало конвертации " +:+ Py.str_of_int n +:+ " файлов...")
           "INFO") ;;
      modify (with_used_names ∅) ;;
      modify (with_tracker None) ;;
      match progress_callback with
      | Some _ =>
          λ s, let r := ProgressTracker_init n (clock env) (ticks s) in
               (Ok tt, with_tracker (Some (fst r)) (with_ticks (snd r) s))
      | None => ret tt
      end ;;
      try_except
        (tracker_start env progress_callback (name first) 1 ;;
         results_loop env output_dir files_to_convert progress_callback
           stop_check 1 (yielded converter) (crash converter))
        (λ e,
           logger env ERROR ("Критическая ошибка при конвертации: " +:+ e) ;;
           if negb (CONTINUE_ON_ERROR config) then raise e else ret tt)
  end.

(* ===================================================================== *)
(** * src/gui_controller.py *)
(* ===================================================================== *)

(** What a run of the worker meets: the configuration taken from the
    panel; whether one of its first statements raises (the imports, the copy
    of the settings onto [Config], its own [output_dir.mkdir]); the records
    that [setup_document_converter] logs and whether it then raises; the
    directory and the engine handed to [convert_documents]; and the value
    of [self.stop_requested] each time the loop reads it. *)
Record Job : Type := mkJob {
  config : Config;
  prepare_raises : option string;
  setup_records : list (LogLevel * string);
  setup_raises : option string;
  output_dir : OutputDir;
  converter : ResultStream;
  stop_requested : Z → bool
}.

(** [self._progress_callback] *)
Definition _progress_callback (message : Message) : M unit := put message.

Definition setup_document_converter (env : Env) (job : Job) : M unit :=
  for_each (setup_records job) (λ r, logger env (fst r) (snd r)) ;;
  match setup_raises job with
  | Some e => raise e
  | None => ret tt
  end.

(** The statements of the [try] block that come before the call of
    [convert_documents]. *)
Definition worker_prologue (env : Env) (job : Job) : M unit :=
  (match prepare_raises job with Some e => raise e | None => ret tt end) ;;
  put (MsgLog "ℹ" "Setting up document converter..." "INFO") ;;
  setup_document_converter env job ;;
  modify (with_doc_stats (λ _, DCS.new)).

(** The completion message, built from the [DocumentConversionStats]. *)
Definition complete_message (stats : DCS.t) : Message :=
  MsgComplete
    (<["success" := DCS.successful stats]>
      (<["partial" := DCS.partial_success stats]>
        (<["failed" := DCS.failed stats]>
          (<["skipped" := DCS.skipped stats]> ∅)))).

Definition _conversion_worker (env : Env) (job : Job) (files : list Path)
  : M unit :=
  try_except
    (worker_prologue env job ;;
     convert_documents env files (converter job) (output_dir job)
       (config job) (Some _progress_callback) (Some (stop_requested job)) ;;
     s <- get_state ;;
     put (complete_message (doc_stats s)))
    (λ e,
       logger env ERROR "Error in conversion worker" ;;
       put (MsgError e)).

(* ===================================================================== *)
(** * Vocabulary of the statements

    Definitions that the lemmas and theorems below are stated with; none
    of them is part of the program. *)
(* ===================================================================== *)



(** A sequence of outcomes recorded one after the other. *)
Definition record_outcomes (outcomes : list string) (t : ProgressTracker)
  : ProgressTracker :=
  foldl (λ t status, update_stats status t) t outcomes.

(** [ProgressTracker(total)], whatever the clock. *)
Definition fresh_tracker (total : Z) : ProgressTracker :=
  fst (ProgressTracker_init total (λ _, zero) 0).



(** The names the loop tests, in the order it tests them. *)
Definition candidate (base_name : string) (j : Z) : string :=
  if j =? 0 then base_name +:+ ".md"
  else base_name +:+ "_" +:+ Py.str_of_int j +:+ ".md".

(** The names returned by successive calls that share one set, which is
    how [convert_documents] uses the function. *)
Fixpoint successive_names {Dir : Type} (output_dir : Dir)
    (paths : list Path) (used_names : gset string)
  : option (list string * gset string) :=
  match paths with
  | [] => Some ([], used_names)
  | p :: paths' =>
      match generate_unique_output_name output_dir p used_names with
      | None => None
      | Some (output_name, used') =>
          match successive_names output_dir paths' used' with
          | None => None
          | Some (l, u) => Some (output_name :: l, u)
          end
      end
  end.

Definition is_log (m : Message) : Prop :=
  match m with MsgLog _ _ _ => True | _ => False end.

(** The two messages that end a run. *)
Definition is_terminal (m : Message) : Prop :=
  match m with MsgComplete _ | MsgError _ => True | _ => False end.

(** The messages that [handle_result] puts for the file at position [idx]
    when it is the [done]-th file to get an outcome, of [n_files] submitted
    ones, the tracker having counted [n_skipped] skipped ones: a progress
    message, at least one log message, a stats message that counts [done]
    files, a progress message. *)
Definition item_block (files_to_convert : list Path)
    (idx done n_files n_skipped : Z) (block : list Message) : Prop :=
  ∃ file p1 logs sm p2,
    files_to_convert !! Z.to_nat (idx - 1) = Some file
    ∧ block = MsgProgress p1 :: logs ++ [MsgStats sm; MsgProgress p2]
    ∧ logs ≠ [] ∧ Forall is_log logs
    ∧ current p1 = idx ∧ filename p1 = name file
    ∧ current p2 = idx ∧ filename p2 = name file
    ∧ total p1 = n_files ∧ total p2 = n_files
    ∧ total_processed_entry sm = done
    ∧ stats_entry sm !! "skipped"%string = Some n_skipped.

(** Everything one handled result changes. *)
Definition item_effect (files_to_convert : list Path) (idx : Z)
    (s s' : State) : Prop :=
  ∃ t t' block names,
    tracker s = Some t ∧ tracker s' = Some t'
    ∧ message_queue s' = message_queue s ++ block
    ∧ item_block files_to_convert idx (total_processed (stats t) + 1)
        (total_files t) (skipped (stats t)) block
    ∧ total_files t' = total_files t
    ∧ total_processed (stats t') = total_processed (stats t) + 1
    ∧ skipped (stats t') = skipped (stats t)
    ∧ DCS.skipped (doc_stats s') = DCS.skipped (doc_stats s)
    ∧ DCS.total_files (doc_stats s') = DCS.total_files (doc_stats s)
    ∧ DCS.successful (doc_stats s') + DCS.partial_success (doc_stats s')
      + DCS.failed (doc_stats s')
      = DCS.successful (doc_stats s) + DCS.partial_success (doc_stats s)
        + DCS.failed (doc_stats s) + 1
    ∧ saved s' = saved s ++ names
    ∧ (length names ≤ 1)%nat
    ∧ (∀ x, x ∈ names → x ∉ used_names s)
    ∧ used_names s' = list_to_set names ∪ used_names s.

(** The blocks of consecutive items, from position [idx] on, the first
    one being the [done + 1]-th file to get an outcome. *)
Inductive blocks_from (files_to_convert : list Path) (n_files n_skipped : Z)
  : Z → Z → list (list Message) → Prop :=
  | blocks_from_nil idx done :
      blocks_from files_to_convert n_files n_skipped idx done []
  | blocks_from_cons idx done block blocks :
      item_block files_to_convert idx (done + 1) n_files n_skipped block →
      blocks_from files_to_convert n_files n_skipped (idx + 1) (done + 1) blocks →
      blocks_from files_to_convert n_files n_skipped idx done (block :: blocks).

(** What the loop leaves behind, compared with the state it started in. *)
Record loop_effect (files_to_convert : list Path) (idx : Z)
    (n_results : nat) (s s' : State) (t : ProgressTracker)
    (blocks : list (list Message)) (tail : list Message)
    (names : list string) (t' : ProgressTracker) : Prop := {
  le_queue : message_queue s' = message_queue s ++ concat blocks ++ tail;
  le_blocks :
    blocks_from files_to_convert (total_files t) (skipped (stats t)) idx
      (total_processed (stats t)) blocks;
  le_tail : Forall is_log tail;
  le_count : (length blocks ≤ n_results)%nat;
  le_range : idx + Z.of_nat (length blocks) - 1
             ≤ Z.of_nat (length files_to_convert);
  le_tracker : tracker s' = Some t';
  le_total_files : total_files t' = total_files t;
  le_processed :
    total_processed (stats t')
    = total_processed (stats t) + Z.of_nat (length blocks);
  le_skipped : skipped (stats t') = skipped (stats t);
  le_doc_skipped : DCS.skipped (doc_stats s') = DCS.skipped (doc_stats s);
  le_doc_total :
    DCS.total_files (doc_stats s') = DCS.total_files (doc_stats s);
  le_doc_sum :
    DCS.successful (doc_stats s') + DCS.partial_success (doc_stats s')
    + DCS.failed (doc_stats s')
    = DCS.successful (doc_stats s) + DCS.partial_success (doc_stats s)
      + DCS.failed (doc_stats s) + Z.of_nat (length blocks);
  le_saved : saved s' = saved s ++ names;
  le_nodup : NoDup names;
  le_fresh : ∀ x, x ∈ names → x ∉ used_names s;
  le_used : used_names s' = list_to_set names ∪ used_names s
}.

(** A file that the size filter leaves out. *)
Definition oversize (config : Config) (p : Path) : bool :=
  match st_size p with
  | Ok n => (0 <? MAX_FILE_SIZE config) && (MAX_FILE_SIZE config <? n)
  | Raise _ => false
  end.

(** [stat()] answers for this file. *)
Definition stat_ok (p : Path) : Prop := ∃ n, st_size p = Ok n.

(** The files handed to the engine, and the number of the others. *)
Definition submitted (config : Config) (files : list Path) : list Path :=
  filter (λ p, oversize config p = false) files.

Definition n_oversize (config : Config) (files : list Path) : Z :=
  Z.of_nat (length (filter (λ p, oversize config p = true) files)).

(** What the size filter leaves behind. *)
Record filter_effect (config : Config) (files acc : list Path)
    (s s' : State) (r : Result (list Path)) (tail : list Message) : Prop := {
  fe_queue : message_queue s' = message_queue s ++ tail;
  fe_tail : Forall is_log tail;
  fe_ticks : ticks s' = ticks s;
  fe_tracker : tracker s' = tracker s;
  fe_used : used_names s' = used_names s;
  fe_saved : saved s' = saved s;
  fe_successful : DCS.successful (doc_stats s') = DCS.successful (doc_stats s);
  fe_partial :
    DCS.partial_success (doc_stats s') = DCS.partial_success (doc_stats s);
  fe_failed : DCS.failed (doc_stats s') = DCS.failed (doc_stats s);
  fe_result :
    match r with
    | Ok files_to_convert =>
        Forall stat_ok files
        ∧ files_to_convert = acc ++ submitted config files
        ∧ DCS.skipped (doc_stats s')
          = DCS.skipped (doc_stats s) + n_oversize config files
    | Raise e => ∃ p, p ∈ files ∧ st_size p = Raise e
    end
}.

(** The three ways [convert_documents] ends when the worker calls it:

    - an exception raised before the [try]: by [output_dir.mkdir] or by a
      [stat()] of the size filter;
    - nothing left to convert once the filter is through;
    - the [try] entered, and with it the loop over the results. *)
Inductive conversion_outcome (files : list Path) (converter : ResultStream)
    (output_dir : OutputDir) (config : Config)
    (s : State) (r : Result unit) (s' : State) : Prop :=
  | raised_before_try e tail
      (Hres : r = Raise e)
      (Hcause : mkdir output_dir = Some e
                ∨ ∃ p, p ∈ files ∧ st_size p = Raise e)
      (Hqueue : message_queue s' = message_queue s ++ tail)
      (Htail : Forall is_log tail)
      (Hsum : DCS.successful (doc_stats s') + DCS.partial_success (doc_stats s')
              + DCS.failed (doc_stats s')
              = DCS.successful (doc_stats s) + DCS.partial_success (doc_stats s)
                + DCS.failed (doc_stats s))
      (Hsaved : saved s' = saved s)
      (Htracker : tracker s' = tracker s)
  | nothing_to_convert tail
      (Hres : r = Ok tt)
      (Hmkdir : mkdir output_dir = None)
      (Hstat : Forall stat_ok files)
      (Hnone : submitted config files = [])
      (Hqueue : message_queue s' = message_queue s ++ tail)
      (Htail : Forall is_log tail)
      (Hskipped : DCS.skipped (doc_stats s')
                  = DCS.skipped (doc_stats s) + n_oversize config files)
      (Htotal : DCS.total_files (doc_stats s') = 0)
      (Hsum : DCS.successful (doc_stats s') + DCS.partial_success (doc_stats s')
              + DCS.failed (doc_stats s')
              = DCS.successful (doc_stats s) + DCS.partial_success (doc_stats s)
                + DCS.failed (doc_stats s))
      (Hsaved : saved s' = saved s)
      (Htracker : tracker s' = tracker s)
  | loop_entered head p0 blocks tail names t'
      (Hmkdir : mkdir output_dir = None)
      (Hstat : Forall stat_ok files)
      (Hsome : submitted config files ≠ [])
      (Hqueue : message_queue s'
                = message_queue s
                  ++ head ++ MsgProgress p0 :: concat blocks ++ tail)
      (Hhead : Forall is_log head)
      (Htail : Forall is_log tail)
      (Hfirst : current p0 = 1
                ∧ total p0 = Z.of_nat (length (submitted config files)))
      (Hblocks : blocks_from (submitted config files)
                   (Z.of_nat (length (submitted config files))) 0 1 0 blocks)
      (Hcount : (length blocks ≤ length (yielded converter))%nat
                ∧ (length blocks ≤ length (submitted config files))%nat)
      (Htracker : tracker s' = Some t'
                  ∧ total_files t' = Z.of_nat (length (submitted config files))
                  ∧ skipped (stats t') = 0
                  ∧ total_processed (stats t') = Z.of_nat (length blocks))
      (Hskipped : DCS.skipped (doc_stats s')
                  = DCS.skipped (doc_stats s) + n_oversize config files)
      (Htotal : DCS.total_files (doc_stats s')
                = Z.of_nat (length (submitted config files)))
      (Hsum : DCS.successful (doc_stats s') + DCS.partial_success (doc_stats s')
              + DCS.failed (doc_stats s')
              = DCS.successful (doc_stats s) + DCS.partial_success (doc_stats s)
                + DCS.failed (doc_stats s) + Z.of_nat (length blocks))
      (Hsaved : saved s' = saved s ++ names ∧ NoDup names)
      (Hres : r = Ok tt ∨ ∃ e, r = Raise e ∧ CONTINUE_ON_ERROR config = false).


(** The number of outcomes a [DocumentConversionStats] has counted for
    submitted files. *)
Definition outcomes (d : DCS.t) : Z :=
  DCS.successful d + DCS.partial_success d + DCS.failed d.



(** What the counts carried by a message must be, for [n_submitted] files
    submitted and [n_skipped] files left out by the size filter. *)
Definition message_counts (n_submitted n_skipped : Z) (m : Message) : Prop :=
  match m with
  | MsgLog _ _ _ => True
  | MsgProgress p => total p = n_submitted
  | MsgStats sm =>
      stats_entry sm !! "skipped"%string = Some 0
      ∧ 0 < total_processed_entry sm ≤ n_submitted
  | MsgComplete d => d !! "skipped"%string = Some n_skipped
  | MsgError _ => True
  end.

(** A clock that advances by one second at each reading, a root logger at
    its default level, a handler that keeps the text. *)
Definition example_env : Env :=
  mkEnv (λ n, Py.float_of_int (Z.of_nat n)) (λ _, "?")
    (λ l, match l with WARNING | ERROR => true | _ => false end)
    (λ _ _ text, ("⚠", text)).

(** Three files, the second one over the limit of 100 bytes. *)
Definition example_files : list Path :=
  [mkPath "a.pdf" "a" (Ok 10); mkPath "big.pdf" "big" (Ok 1000);
   mkPath "b.pdf" "b" (Ok 20)].

(** An engine that converts both submitted files, an owner who asks to
    stop while the first one is handled. *)
Definition example_job : Job :=
  mkJob (mkConfig 100 0 true) None [] None (mkOutputDir None)
    (mkResultStream
       [mkConversionResult SUCCESS [] None;
        mkConversionResult PARTIAL_SUCCESS ["page 3"] None] None)
    (λ idx, 2 <=? idx).

Definition example_state : State := mkState [] 0 DCS.new None ∅ [].

(* ===================================================================== *)
(** * Properties of the progress tracker *)
(* ===================================================================== *)








(** C5 fails on the code: with 29 of 100 files processed the quotient
    29/100 is the double just below 0.29, its product with 100 is the
    double just below 29, and [int] truncates it to 28; the floor of
    100 * 29 / 100 is 29. *)
Theorem get_progress_percentage_29_of_100 :
  let t := record_outcomes (replicate 29 "success"%string) (fresh_tracker 100) in
  total_processed (stats t) = 29
  ∧ total_files t = 100
  ∧ get_progress_percentage t = 28
  ∧ (100 * total_processed (stats t)) `div` total_files t = 29.
Proof. vm_compute. repeat split; reflexivity. Qed.

(** The other half of C5 holds: no division when there is no file. *)
Lemma get_progress_percentage_no_files t :
  total_files t = 0 → get_progress_percentage t = 0.
Proof. intros H. unfold get_progress_percentage. rewrite H. reflexivity. Qed.








(** C10: [get_current_file_percentage()] is [None] on every tracker, and
    so is the ['current_file_percentage'] entry of every message made by
    [to_progress_message]. *)
Theorem current_file_percentage_is_None (t : ProgressTracker) :
  get_current_file_percentage t = None
  ∧ ∀ (clk : Clock) (n : nat),
      ∃ m, fst (to_progress_message t clk n) = MsgProgress m
           ∧ current_file_percentage m = None.
Proof.
  split; [reflexivity|]. intros clk n. unfold to_progress_message.
  destruct (get_eta t clk n) as [[eta_s eta_f] k].
  destruct (get_elapsed_formatted t clk k) as [el k'].
  cbn. eexists. split; reflexivity.
Qed.

(* ===================================================================== *)
(** * Properties of [generate_unique_output_name] *)
(* ===================================================================== *)

Lemma length_append (s1 s2 : string) :
  String.length (s1 +:+ s2) = (String.length s1 + String.length s2)%nat.
Proof.
  induction s1 as [|a s1 IH]; [reflexivity|].
  change (S (String.length (s1 +:+ s2))
          = S (String.length s1 + String.length s2)).
  by rewrite IH.
Qed.

Lemma append_inv_tail (s1 s2 t : string) : s1 +:+ t = s2 +:+ t → s1 = s2.
Proof.
  revert s2. induction s1 as [|a s1 IH]; intros [|b s2] H.
  - reflexivity.
  - apply (f_equal String.length) in H.
    rewrite !length_append in H. simpl in H. lia.
  - apply (f_equal String.length) in H.
    rewrite !length_append in H. simpl in H. lia.
  - simpl in H. injection H as -> H. f_equal. by apply IH.
Qed.

Lemma candidate_inj base_name i j :
  0 ≤ i → 0 ≤ j → candidate base_name i = candidate base_name j → i = j.
Proof.
  unfold candidate. intros Hi Hj H.
  destruct (Z.eqb_spec i 0) as [->|Hi0], (Z.eqb_spec j 0) as [->|Hj0];
    try reflexivity; apply String.app_inj in H; cbn in H; try discriminate H.
  injection H as H.
  change (Py.str_of_int i +:+ ".md" = Py.str_of_int j +:+ ".md") in H.
  apply append_inv_tail in H.
  unfold Py.str_of_int in H. by apply (inj pretty) in H.
Qed.

(** The loop ends within [fuel] further iterations as soon as [fuel]
    bounds a set [U] that holds every used name still to be tested. *)
Lemma unique_name_loop_ends base_name (used_names : gset string) :
  ∀ (fuel : nat) (c : Z) (U : gset string),
    1 ≤ c → (size U ≤ fuel)%nat →
    (∀ j, c - 1 ≤ j → candidate base_name j ∈ used_names
          → candidate base_name j ∈ U) →
    ∃ k, c - 1 ≤ k
         ∧ unique_name_loop fuel base_name used_names
             (candidate base_name (c - 1)) c = Some (candidate base_name k)
         ∧ (candidate base_name k ∉ used_names)
         ∧ (∀ j, c - 1 ≤ j < k → candidate base_name j ∈ used_names).
Proof.
  induction fuel as [|fuel IH]; intros c U Hc Hsize HU.
  - exists (c - 1). cbn. destruct (decide _) as [Hin|Hnin].
    + apply HU in Hin; [|lia].
      assert (U ≢ ∅) as Hne by set_solver.
      apply size_non_empty_iff in Hne. lia.
    + repeat split; [lia | done | lia].
  - cbn. destruct (decide _) as [Hin|Hnin].
    + destruct (IH (c + 1) (U ∖ {[candidate base_name (c - 1)]}))
        as (k & Hk & Hrun & Hfresh & Hbelow).
      * lia.
      * assert (candidate base_name (c - 1) ∈ U) as HinU by (apply HU; [lia|done]).
        rewrite size_difference, size_singleton; [lia|].
        by apply singleton_subseteq_l.
      * intros j Hj Hused. apply elem_of_difference. split.
        -- apply HU; [lia | done].
        -- intros Heq. apply elem_of_singleton in Heq.
           apply candidate_inj in Heq; lia.
      * exists k. split; [lia|]. split; [|split; [done|]].
        -- replace (c + 1 - 1) with c in Hrun by lia.
           unfold candidate in Hrun at 1.
           destruct (Z.eqb_spec c 0) as [?|_]; [lia|]. exact Hrun.
        -- intros j Hj. destruct (decide (j = c - 1)) as [->|Hne]; [done|].
           apply Hbelow. lia.
    + exists (c - 1). repeat split; [lia | done | lia].
Qed.

(** The function always returns; the name it returns was not in the set,
    is the first free one among [stem.md, stem_1.md, stem_2.md, ...], and
    is in the set afterwards, with the names that were there. *)
Lemma generate_unique_output_name_returns {Dir : Type} (output_dir : Dir)
    (original_path : Path) (used_names : gset string) :
  ∃ k, 0 ≤ k
    ∧ generate_unique_output_name output_dir original_path used_names
      = Some (candidate (stem original_path) k,
              {[candidate (stem original_path) k]} ∪ used_names)
    ∧ (candidate (stem original_path) k ∉ used_names)
    ∧ (∀ j, 0 ≤ j < k → candidate (stem original_path) j ∈ used_names).
Proof.
  destruct (unique_name_loop_ends (stem original_path) used_names
              (size used_names) 1 used_names) as (k & Hk & Hrun & Hfresh & Hb);
    [lia | lia | done |].
  exists k. unfold generate_unique_output_name.
  change (candidate (stem original_path) (1 - 1))
    with (stem original_path +:+ ".md") in Hrun.
  rewrite Hrun. repeat split; [lia | done | intros; apply Hb; lia].
Qed.

(** More fuel changes nothing once the loop has ended. *)
Lemma unique_name_loop_more_fuel base_name used_names :
  ∀ fuel fuel' output_name counter result,
    (fuel ≤ fuel')%nat →
    unique_name_loop fuel base_name used_names output_name counter = Some result →
    unique_name_loop fuel' base_name used_names output_name counter = Some result.
Proof.
  induction fuel as [|fuel IH]; intros fuel' output_name counter result Hle H.
  - cbn in H. destruct (decide _); [discriminate|].
    destruct fuel'; cbn; destruct (decide _); done.
  - destruct fuel' as [|fuel']; [lia|]. cbn in *.
    destruct (decide _); [|done]. apply IH; [lia | done].
Qed.

Lemma successive_names_distinct {Dir : Type} (output_dir : Dir) paths :
  ∀ used_names,
    ∃ l, successive_names output_dir paths used_names
         = Some (l, list_to_set l ∪ used_names)
       ∧ length l = length paths
       ∧ NoDup l
       ∧ ∀ x, x ∈ l → x ∉ used_names.
Proof.
  induction paths as [|p paths IH]; intros used_names.
  - exists []. split; [|split; [done|split]].
    + cbn [successive_names]. by rewrite list_to_set_nil, (left_id_L ∅ (∪)).
    + constructor.
    + intros x Hx. by apply elem_of_nil in Hx.
  - destruct (generate_unique_output_name_returns output_dir p used_names)
      as (k & _ & Hgen & Hfresh & _).
    destruct (IH ({[candidate (stem p) k]} ∪ used_names))
      as (l & Hl & Hlen & Hnd & Hout).
    exists (candidate (stem p) k :: l). cbn [successive_names length].
    rewrite Hgen, Hl.
    split; [|split; [|split]].
    + rewrite list_to_set_cons. do 2 f_equal.
      rewrite (comm_L (∪) {[candidate (stem p) k]} (list_to_set l)).
      by rewrite (assoc_L (∪)).
    + by rewrite Hlen.
    + constructor; [|done]. intros Hin. apply Hout in Hin.
      apply Hin, elem_of_union_l, elem_of_singleton. reflexivity.
    + intros x Hx. apply elem_of_cons in Hx as [->|Hx]; [done|].
      apply Hout in Hx. intros Hu. apply Hx, elem_of_union_r, Hu.
Qed.

(* ===================================================================== *)
(** * Properties of the job: one result *)
(* ===================================================================== *)

Ltac run :=
  cbv beta iota zeta delta
      [bind ret raise try_except get_state modify put with_queue with_ticks
       with_doc_stats with_tracker with_used_names with_saved message_queue
       ticks doc_stats tracker used_names saved logger on_tracker
       tracker_message call if_callback _progress_callback tracker_update
       tracker_start fresh_output_name do_save save_failed].

Lemma relayed_is_log env n l text : Forall is_log (relayed env n l text).
Proof.
  unfold relayed. destruct (isEnabledFor env l); repeat constructor.
Qed.

Lemma to_progress_message_fst t clk n :
  ∃ el et es,
    (to_progress_message t clk n).1
    = MsgProgress
        (mkProgressMessage (current_file_index t) (total_files t)
           (current_filename t) (get_progress_percentage t) None el et es).
Proof.
  unfold to_progress_message.
  destruct (get_eta t clk n) as [[es et] k].
  destruct (get_elapsed_formatted t clk k) as [el k'].
  by exists el, et, es.
Qed.

Lemma update_stats_success t :
  update_stats "success" t
  = set_stats t (mkConversionStats (success (stats t) + 1) (partial (stats t))
                   (failed (stats t)) (skipped (stats t))).
Proof. reflexivity. Qed.

Lemma update_stats_partial t :
  update_stats "partial" t
  = set_stats t (mkConversionStats (success (stats t)) (partial (stats t) + 1)
                   (failed (stats t)) (skipped (stats t))).
Proof. reflexivity. Qed.

Lemma update_stats_failed t :
  update_stats "failed" t
  = set_stats t (mkConversionStats (success (stats t)) (partial (stats t))
                   (failed (stats t) + 1) (skipped (stats t))).
Proof. reflexivity. Qed.

(** The tracker after [start_file], [update_stats] with one of the three
    kinds the loop uses, and [end_file]. *)
Lemma tracker_after_item kind nm idx t clk n m :
  kind ∈ ["success"; "partial"; "failed"]%string →
  let t' := (end_file idx (update_stats kind (start_file nm idx t clk n).1)
               clk m).1 in
  total_files t' = total_files t
  ∧ total_processed (stats t') = total_processed (stats t) + 1
  ∧ skipped (stats t') = skipped (stats t)
  ∧ current_file_index t' = idx
  ∧ current_filename t' = nm.
Proof.
  intros Hk. rewrite !elem_of_cons, elem_of_nil in Hk.
  destruct Hk as [->|[->|[->|[]]]]; cbv zeta;
    rewrite ?update_stats_success, ?update_stats_partial, ?update_stats_failed;
    unfold total_processed; cbn; repeat split; try reflexivity; lia.
Qed.

(** The loop over the error lines of a partial result puts log messages
    only. *)
Lemma for_each_logs {A} (l : list A) (body : A → M unit) :
  (∀ x s, ∃ lines, body x s = (Ok tt, with_queue (λ q, q ++ lines) s)
                   ∧ Forall is_log lines) →
  ∀ s, ∃ lines, for_each l body s = (Ok tt, with_queue (λ q, q ++ lines) s)
                ∧ Forall is_log lines.
Proof.
  intros Hbody. induction l as [|x l IH]; intros s.
  - exists []. split; [|constructor].
    destruct s. cbn. unfold ret, with_queue. cbn. by rewrite app_nil_r.
  - destruct (Hbody x s) as (l1 & H1 & Hl1).
    destruct (IH (with_queue (λ q, q ++ l1) s)) as (l2 & H2 & Hl2).
    exists (l1 ++ l2). split; [|by apply Forall_app].
    cbn [for_each]. unfold bind. rewrite H1, H2.
    destruct s. unfold with_queue. cbn. by rewrite app_assoc.
Qed.

Lemma to_dict_skipped s : to_dict s !! "skipped"%string = Some (skipped s).
Proof.
  unfold to_dict.
  rewrite !lookup_insert_ne by discriminate. apply lookup_insert_eq.
Qed.

(** The shape shared by the five ways a result is handled. *)
Lemma item_effect_intro ftc idx file q n ds t u sv kind clk n0 m1 m2 m3
    logs q' n' ds' u' sv' names :
  let T1 := (start_file (name file) idx t clk n0).1 in
  let T2 := (end_file idx (update_stats kind T1) clk m2).1 in
  ftc !! Z.to_nat (idx - 1) = Some file →
  kind ∈ ["success"; "partial"; "failed"]%string →
  q' = q ++ (to_progress_message T1 clk m1).1
            :: logs ++ [to_stats_message T2; (to_progress_message T2 clk m3).1] →
  logs ≠ [] → Forall is_log logs →
  DCS.skipped ds' = DCS.skipped ds →
  DCS.total_files ds' = DCS.total_files ds →
  DCS.successful ds' + DCS.partial_success ds' + DCS.failed ds'
    = DCS.successful ds + DCS.partial_success ds + DCS.failed ds + 1 →
  sv' = sv ++ names → (length names ≤ 1)%nat →
  (∀ x, x ∈ names → x ∉ u) → u' = list_to_set names ∪ u →
  item_effect ftc idx (mkState q n ds (Some t) u sv)
    (mkState q' n' ds' (Some T2) u' sv').
Proof.
  intros T1 T2 Hfile Hkind -> Hne Hlogs Hsk Htf Hsum -> Hlen Hfresh ->.
  destruct (tracker_after_item kind (name file) idx t clk n0 m2 Hkind)
    as (Ht1 & Ht2 & Ht3 & Ht4 & Ht5). fold T1 T2 in Ht1, Ht2, Ht3, Ht4, Ht5.
  destruct (to_progress_message_fst T1 clk m1) as (el1 & et1 & es1 & HP1).
  destruct (to_progress_message_fst T2 clk m3) as (el2 & et2 & es2 & HP2).
  eexists t, T2, _, names.
  cbn [tracker message_queue doc_stats saved used_names].
  split; [done|]. split; [done|]. split; [reflexivity|].
  split; [|done].
  rewrite HP1, HP2. unfold to_stats_message.
  eexists file, _, logs, _, _.
  split; [done|]. split; [reflexivity|].
  cbn [current filename total total_processed_entry stats_entry].
  rewrite to_dict_skipped, Ht1, Ht2, Ht3, Ht4, Ht5.
  repeat split; done.
Qed.

Lemma app_singleton_ne_nil {A} (l : list A) (x : A) : l ++ [x] ≠ [].
Proof. by destruct l. Qed.

Lemma list_to_set_singleton_union (x : string) (u : gset string) :
  {[x]} ∪ u = list_to_set [x] ∪ u.
Proof. by rewrite list_to_set_cons, list_to_set_nil, (right_id_L ∅ (∪)). Qed.

Lemma elem_of_singleton_list_fresh (x : string) (u : gset string) :
  x ∉ u → ∀ y, y ∈ [x] → y ∉ u.
Proof. intros Hx y Hy. apply list_elem_of_singleton in Hy. by subst. Qed.

Ltac not_nil :=
  let H := fresh in
  intros H; apply (f_equal length) in H;
  rewrite ?length_app in H; cbn [length] in H; lia.

Ltac close_item :=
  first [ by apply relayed_is_log | not_nil
        | by apply list_to_set_singleton_union
        | by apply elem_of_singleton_list_fresh
        | (cbn; lia) | reflexivity | done ].

(** What [handle_result] does, as the worker calls it: with the callback
    of the controller and a tracker in place. *)
Lemma handle_result_effect {Dir : Type} env (output_dir : Dir) ftc idx r s t :
  tracker s = Some t → 1 ≤ idx →
  match ftc !! Z.to_nat (idx - 1) with
  | None =>
      handle_result env output_dir ftc (Some _progress_callback) idx r s
      = (Raise "list index out of range", s)
  | Some file =>
      ∃ s', handle_result env output_dir ftc (Some _progress_callback) idx r s
            = (Ok tt, s')
            ∧ item_effect ftc idx s s'
  end.
Proof.
  intros Ht Hidx. destruct s as [q n ds tr u sv]. cbn in Ht. subst tr.
  unfold handle_result, getitem.
  destruct (Z.ltb_spec (idx - 1) 0); [lia|].
  destruct (Z.leb_spec 0 (idx - 1)); [|lia].
  destruct (ftc !! Z.to_nat (idx - 1)) as [file|] eqn:Hfile; [|reflexivity].
  destruct (generate_unique_output_name_returns output_dir file u)
    as (k & _ & Hgen & Hfresh & _).
  destruct (status r) eqn:Hst.
  - (* SUCCESS *)
    run. rewrite Hgen. run.
    destruct (save_as_markdown r) as [e|]; run.
    all: eexists; split; [reflexivity|].
    all: match goal with
         | |- context [(((((?q0 ++ [?P1]) ++ ?R1) ++ ?R2) ++ [?L]) ++ [?S]) ++ [?P2]] =>
             eapply (item_effect_intro ftc idx file q0)
               with (logs := R1 ++ R2 ++ [L]) (names := [candidate (stem file) k])
         end.
    all: try (rewrite <- ?app_assoc; reflexivity).
    all: repeat apply Forall_app_2; try (repeat constructor; fail).
    all: close_item.
  - (* PARTIAL_SUCCESS *)
    run. rewrite Hgen. run.
    destruct (save_as_markdown r) as [e|]; run.
    + eexists; split; [reflexivity|].
      match goal with
      | |- context [(((((?q0 ++ [?P1]) ++ ?R1) ++ ?R2) ++ [?L]) ++ [?S]) ++ [?P2]] =>
          eapply (item_effect_intro ftc idx file q0)
            with (logs := R1 ++ R2 ++ [L]) (names := [candidate (stem file) k])
      end.
      all: try (rewrite <- ?app_assoc; reflexivity).
      all: repeat apply Forall_app_2; try (repeat constructor; fail).
      all: try close_item.
    + match goal with
      | |- context [for_each ?l ?body ?st] =>
          destruct (for_each_logs l body) with (s := st)
            as (lines & Hlines & Hlog)
      end.
      { intros x [q0 n0 ds0 tr0 u0 sv0]. eexists. split.
        - unfold with_queue. cbn [message_queue ticks doc_stats tracker
            used_names saved]. rewrite <- app_assoc. reflexivity.
        - apply Forall_app_2; [apply relayed_is_log | repeat constructor]. }
      rewrite Hlines. run.
      eexists; split; [reflexivity|].
      match goal with
      | |- context [((((((?q0 ++ [?P1]) ++ ?R1) ++ ?R2) ++ [?L]) ++ ?LL) ++ [?S]) ++ [?P2]] =>
          eapply (item_effect_intro ftc idx file q0)
            with (logs := R1 ++ R2 ++ [L] ++ LL) (names := [candidate (stem file) k])
      end.
      all: try (rewrite <- ?app_assoc; reflexivity).
      all: repeat apply Forall_app_2; try (repeat constructor; fail).
      all: try close_item.
  - (* FAILURE *)
    run. eexists; split; [reflexivity|].
    match goal with
    | |- context [(((((?q0 ++ [?P1]) ++ ?R1) ++ ?R2) ++ [?L]) ++ [?S]) ++ [?P2]] =>
        eapply (item_effect_intro ftc idx file q0)
          with (logs := R1 ++ R2 ++ [L]) (names := [])
    end.
    all: try (rewrite <- ?app_assoc; reflexivity).
    all: repeat apply Forall_app_2; try (repeat constructor; fail).
    all: try close_item.
    all: try (by rewrite app_nil_r).
    all: try (by rewrite list_to_set_nil, (left_id_L ∅ (∪))).
    all: try (intros x Hx; by apply elem_of_nil in Hx).
Qed.

(* ===================================================================== *)
(** * Properties of the job: the loop over the results *)
(* ===================================================================== *)

(** A loop that handles no result: it may leave log messages. *)
Lemma loop_effect_none ftc idx n_results s t tail :
  tracker s = Some t → idx - 1 ≤ Z.of_nat (length ftc) → Forall is_log tail →
  loop_effect ftc idx n_results s (with_queue (λ q, q ++ tail) s) t [] tail []
    t.
Proof.
  intros Ht Hrange Htail. destruct s as [q n ds tr u sv].
  constructor; cbn [with_queue message_queue doc_stats tracker used_names
    saved concat length app]; try done; try lia.
  - constructor.
  - by rewrite app_nil_r.
  - constructor.
  - intros x Hx. by apply elem_of_nil in Hx.
  - by rewrite list_to_set_nil, (left_id_L ∅ (∪)).
Qed.

Lemma with_queue_nil s : with_queue (λ q, q ++ []) s = s.
Proof. destruct s. unfold with_queue. cbn. by rewrite app_nil_r. Qed.

Lemma results_loop_effect {Dir : Type} env (output_dir : Dir) ftc stop_check
    crash results :
  ∀ idx s t, tracker s = Some t → 1 ≤ idx → idx - 1 ≤ Z.of_nat (length ftc) →
    ∃ r s' blocks tail names t',
      results_loop env output_dir ftc (Some _progress_callback) stop_check
        idx results crash s = (r, s')
      ∧ loop_effect ftc idx (length results) s s' t blocks tail names t'.
Proof.
  induction results as [|res results IH]; intros idx s t Ht Hidx Hrange.
  - exists (match crash with Some e => Raise e | None => Ok tt end),
      s, [], [], [], t.
    split; [cbn; by destruct crash|].
    rewrite <- (with_queue_nil s) at 2. by apply loop_effect_none.
  - cbn [results_loop]. destruct (stop_now stop_check idx).
    + eexists (Ok tt), _, [], _, [], t. split; [reflexivity|].
      apply loop_effect_none; [done | done | apply relayed_is_log].
    + pose proof (handle_result_effect env output_dir ftc idx res s t Ht Hidx)
        as Hitem.
      destruct (ftc !! Z.to_nat (idx - 1)) as [file|] eqn:Hfile.
      * destruct Hitem as (s1 & Hrun1 & Heff).
        destruct Heff as (t0 & t1 & block & names1 & Ht0 & Ht1 & Hq1 & Hblock
          & Htf1 & Hp1 & Hsk1 & Hds1 & Hdt1 & Hsum1 & Hsv1 & Hlen1 & Hfr1 & Hu1).
        rewrite Ht in Ht0. injection Ht0 as <-.
        apply lookup_lt_Some in Hfile.
        destruct (IH (idx + 1) s1 t1 Ht1) as
          (r & s' & blocks & tail & names & t' & Hrun & Heff); [lia | lia |].
        destruct Heff.
        exists r, s', (block :: blocks), tail, (names1 ++ names), t'.
        split; [unfold bind; by rewrite Hrun1|].
        constructor; cbn [length concat]; try done; try lia.
        -- rewrite le_queue0, Hq1, <- !app_assoc. reflexivity.
        -- constructor; [done|]. by rewrite <- Htf1, <- Hsk1, <- Hp1.
        -- by rewrite le_saved0, Hsv1, <- app_assoc.
        -- apply NoDup_app. split; [|split; [|done]].
           ++ destruct names1 as [|x [|y l]]; cbn in Hlen1; try lia.
              ** constructor.
              ** apply NoDup_singleton.
           ++ intros x Hx1 Hx. apply le_fresh0 in Hx.
              apply Hx. rewrite Hu1. apply elem_of_union_l.
              by apply elem_of_list_to_set.
        -- intros x Hx. apply elem_of_app in Hx as [Hx|Hx]; [by apply Hfr1|].
           apply le_fresh0 in Hx. intros Hin. apply Hx. rewrite Hu1.
           by apply elem_of_union_r.
        -- rewrite le_used0, Hu1, list_to_set_app_L.
           rewrite (comm_L (∪) (list_to_set names1) (list_to_set names)).
           by rewrite (assoc_L (∪)).
      * exists (Raise "list index out of range"), s, [], [], [], t.
        split; [unfold bind; by rewrite Hitem|].
        rewrite <- (with_queue_nil s) at 2. by apply loop_effect_none.
Qed.

(* ===================================================================== *)
(** * Properties of the job: [convert_documents] *)
(* ===================================================================== *)

Lemma size_filter_effect env config files :
  ∀ acc s, ∃ r s' tail,
    size_filter env config files acc s = (r, s')
    ∧ filter_effect config files acc s s' r tail.
Proof.
  induction files as [|p files IH]; intros acc s.
  - exists (Ok acc), s, []. split; [reflexivity|].
    constructor; try done; [by rewrite app_nil_r|].
    split; [constructor|]. unfold submitted, n_oversize.
    rewrite !filter_nil, app_nil_r. cbn. split; [done | lia].
  - cbn [size_filter]. unfold bind at 1, stat_size.
    destruct (st_size p) as [size|e] eqn:Hstat.
    + cbn [ret].
      destruct ((0 <? MAX_FILE_SIZE config) && (MAX_FILE_SIZE config <? size))
        eqn:Hover.
      * match goal with
        | |- context [bind (logger ?e ?l ?txt) ?k s] =>
            change (bind (logger e l txt) k s)
              with (k tt (with_queue (λ q, q ++ relayed e (length q) l txt) s))
        end. cbv beta.
        match goal with
        | |- context [bind (modify ?f) ?k ?st] =>
            change (bind (modify f) k st) with (k tt (f st))
        end. cbv beta.
        match goal with
        | |- context [size_filter env config files acc ?st] =>
            destruct (IH acc st) as (r & s' & tail & Hrun & Heff)
        end.
        destruct Heff as [fe_queue0 fe_tail0 fe_ticks0 fe_tracker0 fe_used0
          fe_saved0 fe_successful0 fe_partial0 fe_failed0 fe_result0].
        destruct s as [q n ds tr u sv].
        cbn [with_doc_stats with_queue message_queue ticks doc_stats tracker
             used_names saved DCS.add_skipped DCS.successful
             DCS.partial_success DCS.failed DCS.skipped] in *.
        eexists r, s', (_ ++ tail). split; [exact Hrun|].
        constructor; try done.
        -- by rewrite fe_queue0, <- app_assoc.
        -- apply Forall_app_2; [apply relayed_is_log | done].
        -- destruct r as [ftc|e].
           ++ destruct fe_result0 as (Hok & -> & Hsk).
              assert (oversize config p = true) as Hp
                by (unfold oversize; by rewrite Hstat).
              split; [constructor; [by exists size | done]|].
              unfold submitted, n_oversize in *.
              rewrite !filter_cons, Hp.
              destruct (decide (true = false)) as [?|_]; [done|].
              destruct (decide (true = true)) as [_|?]; [|done].
              split; [done|]. rewrite Hsk. cbn [length doc_stats]. lia.
           ++ destruct fe_result0 as (p' & Hin & Hp').
              exists p'. split; [by apply list_elem_of_further | done].
      * destruct (IH (acc ++ [p]) s) as (r & s' & tail & Hrun & Heff).
        destruct Heff as [fe_queue0 fe_tail0 fe_ticks0 fe_tracker0 fe_used0
          fe_saved0 fe_successful0 fe_partial0 fe_failed0 fe_result0].
        exists r, s', tail. split; [exact Hrun|].
        constructor; try done.
        destruct r as [ftc|e].
        -- destruct fe_result0 as (Hok & -> & Hsk).
           assert (oversize config p = false) as Hp
             by (unfold oversize; by rewrite Hstat).
           split; [constructor; [by exists size | done]|].
           unfold submitted, n_oversize in *.
           rewrite !filter_cons, Hp.
           destruct (decide (false = false)) as [_|?]; [|done].
           destruct (decide (false = true)) as [?|_]; [done|].
           split; [by rewrite <- app_assoc | done].
        -- destruct fe_result0 as (p' & Hin & Hp').
           exists p'. split; [by apply list_elem_of_further | done].
    + exists (Raise e), s, []. split; [reflexivity|].
      constructor; try done; [by rewrite app_nil_r|].
      exists p. split; [apply list_elem_of_here | done].
Qed.

Lemma convert_documents_effect env files converter output_dir config
    stop_check s :
  ∃ r s',
    convert_documents env files converter output_dir config
      (Some _progress_callback) stop_check s = (r, s')
    ∧ conversion_outcome files converter output_dir config s r s'.
Proof.
  unfold convert_documents, do_mkdir.
  destruct (mkdir output_dir) as [e|] eqn:Hmk.
  { exists (Raise e), s. split; [reflexivity|].
    eapply (raised_before_try _ _ _ _ _ _ _ e []); try done.
    - by left.
    - by rewrite app_nil_r. }
  unfold bind at 1. cbn [ret]. unfold bind at 1.
  destruct (size_filter_effect env config files [] s)
    as (rf & s1 & tail1 & Hrun1 & Heff1).
  rewrite Hrun1.
  destruct Heff1 as [fe_queue0 fe_tail0 fe_ticks0 fe_tracker0 fe_used0
    fe_saved0 fe_successful0 fe_partial0 fe_failed0 fe_result0].
  destruct rf as [ftc|e]; cycle 1.
  { exists (Raise e), s1. split; [reflexivity|].
    eapply (raised_before_try _ _ _ _ _ _ _ e tail1); try done;
      [by right | lia]. }
  destruct fe_result0 as (Hok & Hftc & Hsk). cbn [app] in Hftc. subst ftc.
  destruct s1 as [q1 n1 ds1 tr1 u1 sv1].
  cbn [message_queue ticks doc_stats tracker used_names saved] in *.
  destruct (submitted config files) as [|first rest] eqn:Hsub.
  - (* nothing to convert *)
    run. eexists _, _. split; [reflexivity|].
    eapply (nothing_to_convert _ _ _ _ _ _ _ (tail1 ++ _));
      cbn [message_queue ticks doc_stats tracker used_names saved
           DCS.set_total_files DCS.skipped DCS.total_files DCS.successful
           DCS.partial_success DCS.failed]; try done.
    + by rewrite fe_queue0, <- app_assoc.
    + apply Forall_app_2; [done | apply relayed_is_log].
    + lia.
  - (* the loop *)
    run.
    match goal with
    | |- context [results_loop ?e ?d ?f ?cb ?st 1 ?rs ?cr ?state] =>
        change (results_loop e d f cb st 1 rs cr state)
          with (results_loop e d f (Some _progress_callback) st 1 rs cr state);
        destruct (results_loop_effect e d f st cr rs 1 state
                    (start_file (name first) 1
                       (ProgressTracker_init
                          (Z.of_nat (length (first :: rest))) (clock env) n1).1
                       (clock env)
                       (ProgressTracker_init
                          (Z.of_nat (length (first :: rest))) (clock env) n1).2).1)
          as (r & s' & blocks & tail & names & t' & Hrun & Heff);
          [reflexivity | lia | cbn [length]; lia |]
    end.
    rewrite Hrun. clear Hrun.
    destruct (to_progress_message_fst
                (start_file (name first) 1
                   (ProgressTracker_init
                      (Z.of_nat (length (first :: rest))) (clock env) n1).1
                   (clock env)
                   (ProgressTracker_init
                      (Z.of_nat (length (first :: rest))) (clock env) n1).2).1
                (clock env)
                (start_file (name first) 1
                   (ProgressTracker_init
                      (Z.of_nat (length (first :: rest))) (clock env) n1).1
                   (clock env)
                   (ProgressTracker_init
                      (Z.of_nat (length (first :: rest))) (clock env) n1).2).2)
      as (el0 & et0 & es0 & HP0).
    rewrite HP0 in Heff.
    destruct Heff as [Hq Hb Htl Hcnt Hrng Htr Htf Hpr Hskp Hdsk Hdtot Hdsum
      Hsv Hnd Hfr Hus].
    match type of Htf with
    | _ = total_files ?T =>
        assert (total_files T = Z.of_nat (length (first :: rest))) as HT1
          by reflexivity;
        assert (stats T = ConversionStats_new) as HT2 by reflexivity;
        rewrite HT1 in Htf, Hb; rewrite HT2 in Hpr, Hskp, Hb; clear HT1 HT2
    end.
    change (total_processed ConversionStats_new) with 0 in Hpr, Hb.
    change (skipped ConversionStats_new) with 0 in Hskp, Hb.
    destruct s' as [q' n' ds' tr' u' sv'].
    cbn [message_queue ticks doc_stats tracker used_names saved
         DCS.set_total_files DCS.skipped DCS.total_files DCS.successful
         DCS.partial_success DCS.failed] in *.
    assert (DCS.skipped ds'
            = DCS.skipped (doc_stats s) + n_oversize config files) as Hskipped
      by (rewrite Hdsk; exact Hsk).
    assert (DCS.successful ds' + DCS.partial_success ds' + DCS.failed ds'
            = DCS.successful (doc_stats s) + DCS.partial_success (doc_stats s)
              + DCS.failed (doc_stats s) + Z.of_nat (length blocks)) as Hsum
      by (rewrite Hdsum; lia).
    assert ((length blocks ≤ length (first :: rest))%nat) as Hcnt2 by lia.
    subst q1 sv1 tr'.
    destruct r as [[]|e]; [|destruct (CONTINUE_ON_ERROR config) eqn:Hcont];
      run; eexists _, _; (split; [reflexivity|]).
    + match type of Hq with
      | _ = (((_ ++ ?R) ++ [?L]) ++ [MsgProgress ?P0]) ++ _ =>
          eapply (loop_entered _ _ _ _ _ _ _
                    (tail1 ++ R ++ [L]) P0 blocks tail names t')
      end;
      cbn [message_queue ticks doc_stats tracker used_names saved];
      rewrite ?Hsub; try done.
      * rewrite Hq, <- !app_assoc. reflexivity.
      * repeat apply Forall_app_2; try done;
          [apply relayed_is_log | repeat constructor].
      * by left.
    + match goal with
      | |- conversion_outcome _ _ _ _ _ _ {| message_queue := _ ++ ?E |} =>
          match type of Hq with
          | _ = (((_ ++ ?R) ++ [?L]) ++ [MsgProgress ?P0]) ++ _ =>
              eapply (loop_entered _ _ _ _ _ _ _
                        (tail1 ++ R ++ [L]) P0 blocks (tail ++ E) names t')
          end
      end;
      cbn [message_queue ticks doc_stats tracker used_names saved];
      rewrite ?Hsub; try done.
      * rewrite Hq at 1. rewrite <- !app_assoc. reflexivity.
      * repeat apply Forall_app_2; try done;
          [apply relayed_is_log | repeat constructor].
      * apply Forall_app_2; [done | apply relayed_is_log].
      * by left.
    + match goal with
      | |- conversion_outcome _ _ _ _ _ _ {| message_queue := _ ++ ?E |} =>
          match type of Hq with
          | _ = (((_ ++ ?R) ++ [?L]) ++ [MsgProgress ?P0]) ++ _ =>
              eapply (loop_entered _ _ _ _ _ _ _
                        (tail1 ++ R ++ [L]) P0 blocks (tail ++ E) names t')
          end
      end;
      cbn [message_queue ticks doc_stats tracker used_names saved];
      rewrite ?Hsub; try done.
      * rewrite Hq at 1. rewrite <- !app_assoc. reflexivity.
      * repeat apply Forall_app_2; try done;
          [apply relayed_is_log | repeat constructor].
      * apply Forall_app_2; [done | apply relayed_is_log].
      * right. by exists e.
Qed.

(* ===================================================================== *)
(** * Properties of the worker *)
(* ===================================================================== *)

Ltac run_worker :=
  cbv beta iota zeta delta
      [bind ret raise try_except get_state modify put with_queue with_ticks
       with_doc_stats with_tracker with_used_names with_saved message_queue
       ticks doc_stats tracker used_names saved logger worker_prologue
       setup_document_converter].

(** The prologue puts log messages only, and on success leaves a new
    [DocumentConversionStats]. *)
Lemma worker_prologue_effect env job s :
  ∃ r s0 head,
    worker_prologue env job s = (r, s0)
    ∧ message_queue s0 = message_queue s ++ head
    ∧ Forall is_log head
    ∧ ticks s0 = ticks s ∧ tracker s0 = tracker s
    ∧ used_names s0 = used_names s ∧ saved s0 = saved s
    ∧ match r with
      | Ok _ =>
          prepare_raises job = None ∧ setup_raises job = None
          ∧ doc_stats s0 = DCS.new
      | Raise e =>
          (prepare_raises job = Some e
           ∨ prepare_raises job = None ∧ setup_raises job = Some e)
      end.
Proof.
  destruct s as [q n ds tr u sv]. unfold worker_prologue.
  destruct (prepare_raises job) as [e|] eqn:Hprep.
  { exists (Raise e), (mkState q n ds tr u sv), []. run_worker.
    split; [reflexivity|]. rewrite app_nil_r. repeat split; try done.
    by left. }
  unfold setup_document_converter.
  destruct (for_each_logs (setup_records job)
              (λ r, logger env r.1 r.2)) with
    (s := with_queue
            (λ q0, q0 ++ [MsgLog "ℹ" "Setting up document converter..." "INFO"])
            (mkState q n ds tr u sv)) as (lines & Hlines & Hlog).
  { intros x s. eexists. split; [reflexivity | apply relayed_is_log]. }
  destruct (setup_raises job) as [e|] eqn:Hset.
  - eexists (Raise e), _, _. split.
    + unfold bind, put, modify, ret, raise. rewrite Hlines. reflexivity.
    + cbn [with_queue message_queue ticks doc_stats tracker used_names saved].
      rewrite <- app_assoc.
      repeat split; try done; [|by right].
      constructor; [done | exact Hlog].
  - eexists (Ok tt), _, _. split.
    + unfold bind, put, modify, ret, raise. rewrite Hlines. reflexivity.
    + cbn [with_queue with_doc_stats message_queue ticks doc_stats tracker
           used_names saved].
      rewrite <- app_assoc.
      repeat split; try done.
      constructor; [done | exact Hlog].
Qed.

(** The worker, in terms of its prologue and of the conversion. *)
Lemma worker_unfold env job files s :
  _conversion_worker env job files s
  = match worker_prologue env job s with
    | (Raise e, s0) =>
        (Ok tt, with_queue
                  (λ q, (q ++ relayed env (length q) ERROR
                                "Error in conversion worker") ++ [MsgError e])
                  s0)
    | (Ok _, s0) =>
        match convert_documents env files (converter job) (output_dir job)
                (config job) (Some _progress_callback)
                (Some (stop_requested job)) s0 with
        | (Ok _, s1) =>
            (Ok tt, with_queue (λ q, q ++ [complete_message (doc_stats s1)]) s1)
        | (Raise e, s1) =>
            (Ok tt, with_queue
                      (λ q, (q ++ relayed env (length q) ERROR
                                    "Error in conversion worker")
                            ++ [MsgError e]) s1)
        end
    end.
Proof.
  unfold _conversion_worker, try_except, bind.
  destruct (worker_prologue env job s) as [[[]|e] s0].
  - destruct (convert_documents _ _ _ _ _ _ _ s0) as [[[]|e] s1].
    + destruct s1. reflexivity.
    + destruct s1. reflexivity.
  - destruct s0. reflexivity.
Qed.

Lemma is_log_not_terminal m : is_log m → ¬ is_terminal m.
Proof. destruct m; cbn; tauto. Qed.

Lemma logs_not_terminal l :
  Forall is_log l → Forall (λ m, ¬ is_terminal m) l.
Proof. intros H. eapply Forall_impl; [exact H | apply is_log_not_terminal]. Qed.

Lemma blocks_not_terminal ftc n k idx done blocks :
  blocks_from ftc n k idx done blocks →
  Forall (λ m, ¬ is_terminal m) (concat blocks).
Proof.
  induction 1 as [|idx done block blocks Hblock _ IH]; [constructor|].
  cbn [concat]. apply Forall_app_2; [|done].
  destruct Hblock as (file & p1 & logs & sm & p2 & _ & -> & _ & Hlogs & _).
  constructor; [by intros []|]. apply Forall_app_2.
  - by apply logs_not_terminal.
  - repeat constructor; by intros [].
Qed.

(** [convert_documents] puts no terminal message. *)
Lemma conversion_not_terminal files converter output_dir config s r s' :
  conversion_outcome files converter output_dir config s r s' →
  ∃ new, message_queue s' = message_queue s ++ new
         ∧ Forall (λ m, ¬ is_terminal m) new.
Proof.
  intros [e tail|tail|head p0 blocks tail names t'].
  - exists tail. split; [done | by apply logs_not_terminal].
  - exists tail. split; [done | by apply logs_not_terminal].
  - eexists. split; [exact Hqueue|].
    apply Forall_app_2; [by apply logs_not_terminal|].
    constructor; [by intros []|]. apply Forall_app_2.
    + by eapply blocks_not_terminal.
    + by apply logs_not_terminal.
Qed.

(** When an exception leaves [convert_documents]: the directory could not
    be made, a file could not be stat'ed, or continue-on-error is off. *)
Lemma conversion_raise_cause files converter output_dir config s r s' e :
  conversion_outcome files converter output_dir config s r s' →
  r = Raise e →
  mkdir output_dir = Some e
  ∨ (∃ p, p ∈ files ∧ st_size p = Raise e)
  ∨ CONTINUE_ON_ERROR config = false.
Proof.
  intros [e' tail|tail|head p0 blocks tail names t'] Hr; subst r.
  - injection Hr as ->. destruct Hcause; [by left | by right; left].
  - discriminate.
  - destruct Hres as [?|(e' & _ & Hc)]; [discriminate|]. by right; right.
Qed.

(** C1, as stated, fails: with continue-on-error enabled, a file that
    cannot be stat'ed makes an exception leave [convert_documents], and the
    worker ends with an ['error'] message. *)
Lemma error_with_continue_on_error :
  let env := mkEnv (λ _, zero) (λ _, "") (λ _, false) (λ _ _ text, ("", text)) in
  let job := mkJob (mkConfig 0 0 true) None [] None (mkOutputDir None)
               (mkResultStream [] None) (λ _, false) in
  let files := [mkPath "gone.pdf" "gone" (Raise "No such file or directory")] in
  let s := mkState [] 0 DCS.new None ∅ [] in
  CONTINUE_ON_ERROR (config job) = true
  ∧ fst (convert_documents env files (converter job) (output_dir job)
           (config job) (Some _progress_callback) (Some (stop_requested job))
           (snd (worker_prologue env job s)))
    = Raise "No such file or directory"
  ∧ message_queue (snd (_conversion_worker env job files s))
    = [MsgLog "ℹ" "Setting up document converter..." "INFO";
       MsgError "No such file or directory"].
Proof. vm_compute. repeat split; reflexivity. Qed.

(** C1 (amended): every run of the worker returns without an exception
    and puts exactly one terminal message, after all its other messages:
    ['complete'] when [convert_documents] returns, ['error'] when an
    exception leaves the prologue or [convert_documents].  An exception
    leaves [convert_documents] only when the output directory cannot be
    made, when a file cannot be stat'ed, both whatever the configuration
    says, or when continue-on-error is disabled. *)
Theorem worker_one_terminal_message env job files s :
  let '(r0, s0) := worker_prologue env job s in
  let '(rc, sc) :=
    convert_documents env files (converter job) (output_dir job)
      (config job) (Some _progress_callback) (Some (stop_requested job)) s0 in
  ∃ s' body last,
    _conversion_worker env job files s = (Ok tt, s')
    ∧ message_queue s' = message_queue s ++ body ++ [last]
    ∧ Forall (λ m, ¬ is_terminal m) body
    ∧ last = match r0, rc with
             | Ok _, Ok _ => complete_message (doc_stats sc)
             | Ok _, Raise e => MsgError e
             | Raise e, _ => MsgError e
             end
    ∧ (∀ e, rc = Raise e →
         mkdir (output_dir job) = Some e
         ∨ (∃ p, p ∈ files ∧ st_size p = Raise e)
         ∨ CONTINUE_ON_ERROR (config job) = false).
Proof.
  destruct (worker_prologue_effect env job s)
    as (r0 & s0 & head & Hpro & Hq0 & Hhead & _).
  destruct (convert_documents_effect env files (converter job) (output_dir job)
              (config job) (Some (stop_requested job)) s0)
    as (rc & sc & Hconv & Hout).
  rewrite worker_unfold, Hpro, Hconv.
  destruct (conversion_not_terminal _ _ _ _ _ _ _ Hout) as (new & Hqc & Hnew).
  assert (∀ e, rc = Raise e →
            mkdir (output_dir job) = Some e
            ∨ (∃ p, p ∈ files ∧ st_size p = Raise e)
            ∨ CONTINUE_ON_ERROR (config job) = false) as Hcause
    by (intros e He; exact (conversion_raise_cause _ _ _ _ _ _ _ e Hout He)).
  destruct r0 as [[]|e0].
  - destruct rc as [[]|e].
    + eexists _, (head ++ new), (complete_message (doc_stats sc)).
      split; [reflexivity|].
      destruct sc as [qc nc dc trc uc svc].
      cbn [with_queue message_queue doc_stats] in *.
      split; [by rewrite Hqc, Hq0, <- !app_assoc|].
      split; [|split; [reflexivity | exact Hcause]].
      apply Forall_app_2; [by apply logs_not_terminal | done].
    + eexists _, (head ++ new ++ relayed env _ ERROR _), (MsgError e).
      split; [reflexivity|].
      destruct sc as [qc nc dc trc uc svc].
      cbn [with_queue message_queue doc_stats] in *.
      split; [by rewrite Hqc, Hq0, <- !app_assoc|].
      split; [|split; [reflexivity | exact Hcause]].
      apply Forall_app_2; [by apply logs_not_terminal|].
      apply Forall_app_2; [done|].
      apply logs_not_terminal, relayed_is_log.
  - eexists _, (head ++ relayed env _ ERROR _), (MsgError e0).
    split; [reflexivity|].
    destruct s0 as [qc nc dc trc uc svc].
    cbn [with_queue message_queue doc_stats] in *.
    split; [by rewrite Hq0, <- !app_assoc|].
    split; [|split; [reflexivity | exact Hcause]].
    apply Forall_app_2; apply logs_not_terminal;
      [done | apply relayed_is_log].
Qed.

(* ===================================================================== *)
(** * Properties of the job: the stop request *)
(* ===================================================================== *)






(* ===================================================================== *)
(** * Properties of the job: the order of the messages, the skipped files *)
(* ===================================================================== *)


Lemma blocks_from_messages ftc n k idx done blocks :
  blocks_from ftc n k idx done blocks →
  ∀ m, m ∈ concat blocks →
    is_log m
    ∨ (∃ p, m = MsgProgress p ∧ total p = n)
    ∨ (∃ sm, m = MsgStats sm
             ∧ stats_entry sm !! "skipped"%string = Some k
             ∧ done < total_processed_entry sm
                    ≤ done + Z.of_nat (length blocks)).
Proof.
  induction 1 as [|idx done b bs Hb _ IH]; intros m Hm.
  - by apply elem_of_nil in Hm.
  - cbn [concat length] in *. apply elem_of_app in Hm as [Hm|Hm].
    + destruct Hb as (file & p1 & logs & sm & p2 & _ & -> & _ & Hlogs & _ & _
        & _ & _ & Ht1 & Ht2 & Hdone & Hsk).
      apply elem_of_cons in Hm as [->|Hm]; [right; left; by exists p1|].
      apply elem_of_app in Hm as [Hm|Hm].
      * left. rewrite Forall_forall in Hlogs. by apply Hlogs.
      * apply elem_of_cons in Hm as [->|Hm].
        -- right; right. exists sm. repeat split; [done | lia | lia].
        -- apply list_elem_of_singleton in Hm as ->.
           right; left. by exists p2.
    + destruct (IH m Hm) as [?|[?|(sm & -> & Hsk & Hd)]];
        [by left | by right; left |].
      right; right. exists sm. repeat split; [done | lia | lia].
Qed.



Lemma logs_message_counts n k l :
  Forall is_log l → Forall (message_counts n k) l.
Proof.
  intros H. eapply Forall_impl; [exact H|]. intros m Hm. by destruct m.
Qed.

Lemma blocks_message_counts ftc n k blocks :
  blocks_from ftc n 0 1 0 blocks →
  Z.of_nat (length blocks) ≤ n →
  Forall (message_counts n k) (concat blocks).
Proof.
  intros Hb Hlen. apply Forall_forall. intros m Hm.
  destruct (blocks_from_messages _ _ _ _ _ _ Hb m Hm)
    as [Hlog|[(p & -> & Hp)|(sm & -> & Hsk & Hd)]].
  - by destruct m.
  - exact Hp.
  - cbn. split; [done | lia].
Qed.

Lemma complete_message_skipped d :
  ∃ dict, complete_message d = MsgComplete dict
          ∧ dict !! "skipped"%string = Some (DCS.skipped d).
Proof.
  eexists. split; [reflexivity|].
  rewrite !lookup_insert_ne by discriminate. apply lookup_insert_eq.
Qed.

Lemma submitted_oversize_length config files :
  Z.of_nat (length files)
  = Z.of_nat (length (submitted config files)) + n_oversize config files.
Proof.
  unfold submitted, n_oversize. induction files as [|p files IH]; [done|].
  rewrite !filter_cons. cbn [length].
  destruct (oversize config p).
  - destruct (decide (true = false)) as [?|_]; [done|].
    destruct (decide (true = true)) as [_|?]; [|done]. cbn [length]. lia.
  - destruct (decide (false = false)) as [_|?]; [|done].
    destruct (decide (false = true)) as [?|_]; [done|]. cbn [length]. lia.
Qed.

(** C3, as stated, fails: of two files, one over the size limit, the
    tracker is made for one file, counts one processed file and no skipped
    one, and [total_files] of the statistics is 1; the skipped file is
    counted by the [skipped] field of the [DocumentConversionStats] only. *)
Lemma skipped_file_not_in_total_files :
  let env := mkEnv (λ _, zero) (λ _, "") (λ _, false) (λ _ _ text, ("", text)) in
  let job := mkJob (mkConfig 100 0 true) None [] None (mkOutputDir None)
               (mkResultStream [mkConversionResult SUCCESS [] None] None)
               (λ _, false) in
  let files := [mkPath "big.pdf" "big" (Ok 1000); mkPath "a.pdf" "a" (Ok 10)] in
  let s' := snd (_conversion_worker env job files
                   (mkState [] 0 DCS.new None ∅ [])) in
  length files = 2%nat
  ∧ DCS.total_files (doc_stats s') = 1
  ∧ DCS.skipped (doc_stats s') = 1
  ∧ (total_files <$> tracker s') = Some 1
  ∧ (total_processed ∘ stats <$> tracker s') = Some 1
  ∧ (skipped ∘ stats <$> tracker s') = Some 0.
Proof. vm_compute. repeat split; reflexivity. Qed.

(** C3 (amended): when the worker gets as far as the size filter and every
    file can be stat'ed, the files left out by the filter are counted by
    the [skipped] field of the [DocumentConversionStats] of the run, and by
    nothing else: [total_files] is the number of submitted files, the
    tracker, if one is made, is made for the submitted files and counts no
    skipped file, every progress message carries the number of submitted
    files and every stats message 0 skipped files.  The ['complete']
    message, which ends the run unless an exception of the engine ends it,
    carries the number of files left out. *)
Theorem skipped_files_accounting env job files s
    (Hprep : prepare_raises job = None)
    (Hsetup : setup_raises job = None)
    (Hmkdir : mkdir (output_dir job) = None)
    (Hstat : Forall stat_ok files) :
  let n_submitted := Z.of_nat (length (submitted (config job) files)) in
  let n_skipped := n_oversize (config job) files in
  ∃ s' new,
    _conversion_worker env job files s = (Ok tt, s')
    ∧ message_queue s' = message_queue s ++ new
    ∧ Z.of_nat (length files) = n_submitted + n_skipped
    ∧ DCS.skipped (doc_stats s') = n_skipped
    ∧ DCS.total_files (doc_stats s') = n_submitted
    ∧ outcomes (doc_stats s') ≤ n_submitted
    ∧ (tracker s' = tracker s
       ∨ ∃ t, tracker s' = Some t
              ∧ total_files t = n_submitted
              ∧ skipped (stats t) = 0
              ∧ total_processed (stats t) = outcomes (doc_stats s'))
    ∧ Forall (message_counts n_submitted n_skipped) new
    ∧ (last new = Some (complete_message (doc_stats s'))
       ∨ CONTINUE_ON_ERROR (config job) = false
         ∧ ∃ e, last new = Some (MsgError e)).
Proof.
  intros n_submitted n_skipped.
  destruct (worker_prologue_effect env job s)
    as (r0 & s0 & head & Hpro & Hq0 & Hhead & _ & Htr0 & _ & _ & Hr0).
  destruct r0 as [[]|e]; cycle 1.
  { destruct Hr0 as [?|[_ ?]]; congruence. }
  destruct Hr0 as (_ & _ & Hnew).
  destruct (convert_documents_effect env files (converter job) (output_dir job)
              (config job) (Some (stop_requested job)) s0)
    as (rc & sc & Hconv & Hout).
  rewrite worker_unfold, Hpro, Hconv.
  pose proof (submitted_oversize_length (config job) files) as Hlen.
  destruct (complete_message_skipped (doc_stats sc)) as (dict & Hdict & Hlook).
  destruct Hout as [e tail|tail|head' p0 blocks tail names t'].
  - (* not reached: the directory is made and every file is stat'ed *)
    exfalso. destruct Hcause as [?|(p & Hin & Hp)]; [congruence|].
    rewrite Forall_forall in Hstat. destruct (Hstat p Hin) as (n & Hn).
    congruence.
  - subst rc. destruct sc as [qc nc dc trc uc svc].
    cbn [with_queue message_queue doc_stats tracker] in *.
    eexists _, (head ++ tail ++ [complete_message dc]).
    split; [reflexivity|].
      cbn [with_queue message_queue doc_stats tracker].
    rewrite Hnew in *. cbn [DCS.new DCS.skipped DCS.successful
      DCS.partial_success DCS.failed] in *.
    assert (n_submitted = 0) as Hn0 by (unfold n_submitted; by rewrite Hnone).
    split; [by rewrite Hqueue, Hq0, <- !app_assoc|].
    split; [done|]. split; [lia|]. split; [lia|].
    split; [unfold outcomes; lia|]. split; [left; congruence|]. split.
    + repeat apply Forall_app_2; try by apply logs_message_counts.
      constructor; [|constructor]. rewrite Hdict. cbn. rewrite Hlook.
      f_equal. cbn. lia.
    + left. rewrite !app_assoc. apply last_snoc.
  - destruct Htracker as (Htr & Htf & Hsk & Hpr).
    destruct Hcount as [_ Hcount]. destruct Hsaved as [_ _].
    destruct sc as [qc nc dc trc uc svc].
    cbn [with_queue message_queue doc_stats tracker] in *.
    rewrite Hnew in *. cbn [DCS.new DCS.skipped DCS.successful
      DCS.partial_success DCS.failed] in *.
    assert (Forall (message_counts n_submitted n_skipped)
              (head ++ head' ++ MsgProgress p0 :: concat blocks ++ tail))
      as Hcounts.
    { repeat apply Forall_app_2; try by apply logs_message_counts.
      constructor; [by destruct Hfirst|].
      apply Forall_app_2; [|by apply logs_message_counts].
      apply (blocks_message_counts (submitted (config job) files));
        [exact Hblocks | unfold n_submitted; lia]. }
    destruct rc as [[]|e].
    + eexists _, ((head ++ head' ++ MsgProgress p0 :: concat blocks ++ tail)
                  ++ [complete_message dc]).
      split; [reflexivity|].
      cbn [with_queue message_queue doc_stats tracker].
      split; [by rewrite Hqueue, Hq0, <- !app_assoc|].
      split; [done|]. split; [lia|]. split; [done|].
      split; [unfold outcomes, n_submitted; lia|].
      split; [right; exists t'; unfold outcomes; repeat split; try done; lia|].
      split.
      * apply Forall_app_2; [done|]. constructor; [|constructor].
        rewrite Hdict. cbn. rewrite Hlook. f_equal. lia.
      * left. apply last_snoc.
    + destruct Hres as [?|(e' & He' & Hcont)]; [discriminate|].
      eexists _, ((head ++ head' ++ MsgProgress p0 :: concat blocks ++ tail)
                  ++ relayed env _ ERROR _ ++ [MsgError e]).
      split; [reflexivity|].
      cbn [with_queue message_queue doc_stats tracker].
      split; [by rewrite Hqueue, Hq0, <- !app_assoc|].
      split; [done|]. split; [lia|]. split; [done|].
      split; [unfold outcomes, n_submitted; lia|].
      split; [right; exists t'; unfold outcomes; repeat split; try done; lia|].
      split.
      * apply Forall_app_2; [done|]. apply Forall_app_2.
        -- apply logs_message_counts, relayed_is_log.
        -- by repeat constructor.
      * right. split; [done|]. exists e. rewrite !app_assoc. apply last_snoc.
Qed.

(* ===================================================================== *)
(** * Properties of the job: the output names of a run *)
(* ===================================================================== *)

(** The file names handed to [save_as_markdown] in one call of
    [convert_documents] are pairwise distinct. *)
Lemma convert_documents_names_distinct env files converter output_dir config
    stop_check s :
  ∃ names,
    saved (snd (convert_documents env files converter output_dir config
                  (Some _progress_callback) stop_check s))
    = saved s ++ names
    ∧ NoDup names.
Proof.
  destruct (convert_documents_effect env files converter output_dir config
              stop_check s) as (r & s' & Hrun & Hout).
  rewrite Hrun. cbn [snd].
  destruct Hout as [e tail|tail|head p0 blocks tail names t'].
  - exists []. rewrite app_nil_r. split; [done | constructor].
  - exists []. rewrite app_nil_r. split; [done | constructor].
  - exists names. exact Hsaved.
Qed.

(** C9: whatever the output directory and the set of used names,
    [generate_unique_output_name] returns (the loop ends within the fuel
    the model gives it, and within any larger one), the name returned was
    not in the set, and the set afterwards is the old one with that name;
    hence the names returned by successive calls that share one set are
    pairwise distinct, and so are the names under which one run of
    [convert_documents] saves its results. *)
Theorem generate_unique_output_name_unique {Dir : Type} (output_dir : Dir)
    (original_path : Path) (used_names : gset string) :
  (∃ output_name,
      generate_unique_output_name output_dir original_path used_names
      = Some (output_name, {[output_name]} ∪ used_names)
      ∧ (output_name ∉ used_names)
      ∧ ∀ fuel, (size used_names ≤ fuel)%nat →
          unique_name_loop fuel (stem original_path) used_names
            (stem original_path +:+ ".md") 1 = Some output_name)
  ∧ (∀ paths : list Path,
      ∃ names,
        successive_names output_dir paths used_names
        = Some (names, list_to_set names ∪ used_names)
        ∧ length names = length paths
        ∧ NoDup names
        ∧ ∀ x, x ∈ names → x ∉ used_names)
  ∧ (∀ env files converter dir config stop_check s,
      ∃ names,
        saved (snd (convert_documents env files converter dir config
                      (Some _progress_callback) stop_check s))
        = saved s ++ names
        ∧ NoDup names).
Proof.
  split; [|split; [intros paths; apply successive_names_distinct
                  |intros; apply convert_documents_names_distinct]].
  destruct (generate_unique_output_name_returns output_dir original_path
              used_names) as (k & _ & Hgen & Hfresh & _).
  exists (candidate (stem original_path) k). repeat split; [done | done |].
  intros fuel Hfuel.
  apply (unique_name_loop_more_fuel _ _ (size used_names)); [done|].
  unfold generate_unique_output_name in Hgen.
  destruct (unique_name_loop _ _ _ _ _) as [nm|]; [|discriminate].
  by injection Hgen as ->.
Qed.

(* ===================================================================== *)
(** * The theorems at work on one run *)
(* ===================================================================== *)

Lemma example_files_stat_ok : Forall stat_ok example_files.
Proof. repeat constructor; eexists; reflexivity. Defined.

Lemma skipped_files_accounting_witness :
  ∃ s' new,
    _conversion_worker example_env example_job example_files example_state
    = (Ok tt, s')
    ∧ message_queue s' = new
    ∧ DCS.skipped (doc_stats s') = 1
    ∧ DCS.total_files (doc_stats s') = 2.
Proof.
  destruct (skipped_files_accounting example_env example_job example_files
              example_state eq_refl eq_refl eq_refl example_files_stat_ok)
    as (s' & new & Hrun & Hq & _ & Hsk & Htot & _).
  exists s', new. repeat split; assumption.
Defined.


Lemma worker_one_terminal_message_witness :
  ∃ s' body last,
    _conversion_worker example_env example_job example_files example_state
    = (Ok tt, s')
    ∧ message_queue s' = body ++ [last]
    ∧ Forall (λ m, ¬ is_terminal m) body
    ∧ is_terminal last.
Proof.
  pose proof (worker_one_terminal_message example_env example_job
                example_files example_state) as H.
  destruct (worker_prologue example_env example_job example_state)
    as [r0 s0].
  destruct (convert_documents _ _ _ _ _ _ _ s0) as [rc sc].
  destruct H as (s' & body & last & Hrun & Hq & Hbody & Hlast & _).
  exists s', body, last. repeat split; try assumption.
  rewrite Hlast. destruct r0 as [[]|e0]; [destruct rc as [[]|e]|]; exact I.
Defined.


Lemma generate_unique_output_name_unique_witness :
  unique_name_loop 5 "a" {["a.md"; "a_1.md"]} "a.md" 1 = Some "a_2.md"%string.
Proof.
  destruct (generate_unique_output_name_unique tt (mkPath "a.pdf" "a" (Ok 1))
              {["a.md"; "a_1.md"]})
    as ((output_name & Hgen & _ & Hfuel) & _).
  apply (f_equal (option_map fst)) in Hgen.
  vm_compute in Hgen. injection Hgen as <-.
  apply Hfuel. vm_compute. lia.
Defined.
